(** * useTeeProof: the contribution-proof workflow of the DLP UI template

    A shallow embedding of [src/components/vana/hooks/useTeeProof.ts].

    The hook's asynchronous function [requestContributionProof] is a linear
    chain of awaited calls wrapped in one [try]/[catch]/[finally].  It is
    embedded as a computation in a small state-and-exception monad:

    - a computation is given the two React state cells of the hook
      ([isProcessing], [error]) and yields its outcome, the cells as it
      leaves them, and the trace of the effects it performed, each effect
      stamped with the state cells as they were when it ran;
    - the collaborators the code awaits (wallet, chain client, HTTP, clock,
      crypto helper) are the fields of a record [World]: what each one
      answers, or the value it throws;
    - a JavaScript [throw] is the outcome [Throw]; [catch] and [finally]
      are combinators of the monad. *)

From Stdlib Require Import ZArith List String Ascii Bool Lia DecimalString DecimalZ.
Import ListNotations.
Open Scope string_scope.
Open Scope Z_scope.

Set Implicit Arguments.
Set Warnings "-register-all".

(** ** JavaScript values used by the hook *)

Module Js.

(** A string-valued slot that may hold [undefined] (an optional property, a
    field of a contract answer cast with [as]). *)
Definition maybe_string := option string.

(** Truthiness of such a slot: [undefined] and the empty string are falsy. *)
Definition truthy (v : maybe_string) : bool :=
  match v with
  | None => false
  | Some EmptyString => false
  | Some (String _ _) => true
  end.

(** [`${v}`]: a template literal coerces [undefined] to its name. *)
Definition template (v : maybe_string) : string :=
  match v with
  | None => "undefined"
  | Some s => s
  end.

(** Numbers.  The identifiers handled here are integer valued; [Number(b)] of
    a bigint may also overflow to an infinity. *)
Inductive number : Type :=
| Num (z : Z)
| Infinity (negative : bool).

(** [Number(b)] for a bigint [b]: the nearest IEEE-754 double, ties to even.
    Below 2^53 every integer is a double; above, the 53 leading bits are
    kept and the rest is rounded. *)
Definition round_magnitude (a : Z) : Z :=
  if a <? 2 ^ 53 then a
  else
    let e := Z.log2 a - 52 in
    let q := Z.shiftr a e in
    let r := Z.land a (Z.ones e) in
    let half := Z.shiftl 1 (e - 1) in
    let q' := if (half <? r) || ((r =? half) && Z.odd q) then q + 1 else q in
    Z.shiftl q' e.

Definition Number (b : Z) : number :=
  let m := round_magnitude (Z.abs b) in
  if 2 ^ 1024 <=? m then Infinity (b <? 0)
  else Num (Z.sgn b * m).

(** [n.toString()] for an integer below 10^21 in magnitude (a millisecond
    clock reading is): its decimal digits. *)
Definition decimal (z : Z) : string :=
  NilZero.string_of_int (Z.to_int z).

(** *** JSON documents *)

(** A parsed JSON document.  A number is kept as the text [JSON.stringify]
    prints for it: the workflow never computes with the numbers of a
    response. *)
Inductive Json : Type :=
| JNull
| JBool (b : bool)
| JNum (text : string)
| JStr (s : string)
| JArr (items : list Json)
| JObj (members : list (string * Json)).

Definition dquote : string := String "034"%char EmptyString.
Definition backslash : string := String "092"%char EmptyString.

Definition hex_digit (n : N) : ascii :=
  match n with
  | 0%N => "0" | 1%N => "1" | 2%N => "2" | 3%N => "3" | 4%N => "4"
  | 5%N => "5" | 6%N => "6" | 7%N => "7" | 8%N => "8" | 9%N => "9"
  | 10%N => "a" | 11%N => "b" | 12%N => "c" | 13%N => "d" | 14%N => "e"
  | _ => "f"
  end%char.

(** One character of a quoted JSON string (QuoteJSONString). *)
Definition escape_char (c : ascii) : string :=
  let n := N_of_ascii c in
  if (n =? 34)%N then backslash ++ dquote
  else if (n =? 92)%N then backslash ++ backslash
  else if (n =? 8)%N then backslash ++ "b"
  else if (n =? 12)%N then backslash ++ "f"
  else if (n =? 10)%N then backslash ++ "n"
  else if (n =? 13)%N then backslash ++ "r"
  else if (n =? 9)%N then backslash ++ "t"
  else if (n <? 32)%N then
    backslash ++ "u00"
      ++ String (hex_digit (n / 16)) (String (hex_digit (n mod 16)) EmptyString)
  else String c EmptyString.

Fixpoint escape (s : string) : string :=
  match s with
  | EmptyString => EmptyString
  | String c rest => escape_char c ++ escape rest
  end.

Definition quote (s : string) : string := dquote ++ escape s ++ dquote.

Fixpoint join (sep : string) (parts : list string) : string :=
  match parts with
  | [] => EmptyString
  | [p] => p
  | p :: rest => p ++ sep ++ join sep rest
  end.

(** [JSON.stringify(v)] without indentation. *)
Fixpoint JSON_stringify (v : Json) : string :=
  match v with
  | JNull => "null"
  | JBool true => "true"
  | JBool false => "false"
  | JNum text => text
  | JStr s => quote s
  | JArr items => "[" ++ join "," (map JSON_stringify items) ++ "]"
  | JObj members =>
      "{" ++ join ","
               (map (fun kv => quote (fst kv) ++ ":" ++ JSON_stringify (snd kv))
                    members)
          ++ "}"
  end.

(** [s.includes(t)] *)
Fixpoint includes (s t : string) : bool :=
  prefix t s ||
  match s with
  | EmptyString => false
  | String _ rest => includes rest t
  end.

Definition lower_char (c : ascii) : ascii :=
  let n := N_of_ascii c in
  if ((65 <=? n) && (n <=? 90))%N then ascii_of_N (n + 32) else c.

(** [s.toLowerCase()] on ASCII letters *)
Fixpoint toLowerCase (s : string) : string :=
  match s with
  | EmptyString => EmptyString
  | String c rest => String (lower_char c) (toLowerCase rest)
  end.

(** What a [throw] carries: an [Error] object with its message, or any other
    value. *)
Inductive Thrown : Type :=
| ErrorObj (message : string)
| NonError (v : Json).

End Js.
Import Js.

(** ** Data exchanged with the collaborators *)

(** Answer of the pool's [jobs(jobId)] read, cast to [JobData]. *)
Record JobData : Type := { teeAddress : maybe_string }.

(** Answer of the pool's [tees(teeAddress)] read, cast to [TeeData]. *)
Record TeeData : Type := { url : maybe_string; publicKey : maybe_string }.

Record JobDetails : Type := {
  teeUrl : maybe_string;
  teePublicKey : maybe_string;
  details_teeAddress : maybe_string
}.

Record EnvVars : Type := { USER_EMAIL : string }.

Record Permission : Type := {
  perm_address : string;
  public_key : string;
  iv : string;
  ephemeral_key : string
}.

(** [ProofRequestBody]; the two optional properties are [None] when absent. *)
Record ProofRequestBody : Type := {
  job_id : number;
  file_id : number;
  nonce : string;
  proof_url : string;
  encryption_seed : string;
  env_vars : EnvVars;
  validate_permissions : list Permission;
  encrypted_encryption_key : maybe_string;
  encryption_key : maybe_string
}.

(** [requestBody.encrypted_encryption_key = v] *)
Definition set_encrypted_encryption_key (v : string) (b : ProofRequestBody) :=
  {| job_id := job_id b; file_id := file_id b; nonce := nonce b;
     proof_url := proof_url b; encryption_seed := encryption_seed b;
     env_vars := env_vars b; validate_permissions := validate_permissions b;
     encrypted_encryption_key := Some v;
     encryption_key := encryption_key b |}.

(** [requestBody.encryption_key = v] *)
Definition set_encryption_key (v : string) (b : ProofRequestBody) :=
  {| job_id := job_id b; file_id := file_id b; nonce := nonce b;
     proof_url := proof_url b; encryption_seed := encryption_seed b;
     env_vars := env_vars b; validate_permissions := validate_permissions b;
     encrypted_encryption_key := encrypted_encryption_key b;
     encryption_key := Some v |}.

(** How many of the two key properties a payload carries. *)
Definition key_fields (b : ProofRequestBody) : nat :=
  (match encrypted_encryption_key b with Some _ => 1 | None => 0 end
   + match encryption_key b with Some _ => 1 | None => 0 end)%nat.

(** The second argument of [fetch].  [body] is the object handed to
    [JSON.stringify]; the text sent is its serialisation. *)
Record RequestInit : Type := {
  method : string;
  headers : list (string * string);
  body : ProofRequestBody
}.

(** What a promise settles to, and what a computation ends with. *)
Inductive Outcome (A : Type) : Type :=
| Return (a : A)
| Throw (t : Thrown).
Arguments Return {A} a.
Arguments Throw {A} t.

(** An HTTP response: its status line and what [json()] settles to (it
    rejects when the body is not JSON). *)
Record Response : Type := { status : Z; json : Outcome Json }.

(** [response.ok]: the status is in the range 200-299. *)
Definition ok (r : Response) : bool :=
  (200 <=? status r) && (status r <=? 299).

Record Receipt : Type := { transactionHash : string }.

Record EncryptionParameters : Type := { ivHex : string; ephemeralKeyHex : string }.

(** The value [requestContributionProof] resolves to. *)
Record ProofResult : Type := {
  fileId : number;
  jobId : number;
  proofData : Json;
  txHash : string
}.

Inductive Arg : Type :=
| ArgNum (n : number)
| ArgStr (s : maybe_string).

(** ** The collaborators

    Everything the hook obtains from outside itself: the connected account,
    the contract registry ([Controller]), the wallet write, the receipt
    wait, the four contract reads, the crypto helper
    ([getEncryptionParameters], of [@/lib/crypto-utils]), the clock and
    [fetch].  A call that can reject answers an [Outcome]. *)
Record World : Type := {
  address : maybe_string;
  teePoolAddress : string;
  dataLiquidityPoolAddress : string;
  writeContractAsync : string -> string -> number -> Outcome string;
  waitForTransactionReceipt : string -> Z -> Outcome Receipt;
  read_fileJobIds : number -> Outcome (list Z);
  read_jobs : number -> Outcome (option JobData);
  read_tees : maybe_string -> Outcome (option TeeData);
  read_publicKey : Outcome string;
  getEncryptionParameters : Outcome EncryptionParameters;
  Date_now : Z;
  fetch : string -> RequestInit -> Outcome Response
}.

(** ** Hook state, effects and the workflow monad *)

(** The two [useState] cells of the hook. *)
Record HookState : Type := { isProcessing : bool; error : option string }.

(** The hook exposes [isProcessing || isPending]; [isPending] belongs to the
    wallet library. *)
Definition exposed_isProcessing (isPending : bool) (s : HookState) : bool :=
  isProcessing s || isPending.

Inductive Event : Type :=
| WriteContract (contract functionName : string) (file : number)
| WaitForReceipt (hash : string) (confirmations : Z)
| ReadContract (contract functionName : string) (args : list Arg)
| Fetch (target : string) (init : RequestInit)
| ConsoleLog (label : string)
| ConsoleError (label : string) (err : Thrown).

(** Effects in the order they happened, each with the state cells it ran
    under. *)
Definition Trace := list (HookState * Event).

Definition M (A : Type) : Type := HookState -> Outcome A * HookState * Trace.

Definition ret {A} (a : A) : M A := fun s => (Return a, s, []).

Definition throw {A} (t : Thrown) : M A := fun s => (Throw t, s, []).

Definition bind {A B} (m : M A) (f : A -> M B) : M B :=
  fun s =>
    match m s with
    | (Return a, s1, tr1) =>
        let '(r, s2, tr2) := f a s1 in (r, s2, (tr1 ++ tr2)%list)
    | (Throw t, s1, tr1) => (Throw t, s1, tr1)
    end.

Notation "x <- m ;; k" := (bind m (fun x => k))
  (at level 61, m at next level, right associativity).
Notation "m ;; k" := (bind m (fun _ => k))
  (at level 61, right associativity).

(** [try { m } catch (err) { handler err }] *)
Definition try_catch {A} (m : M A) (handler : Thrown -> M A) : M A :=
  fun s =>
    match m s with
    | (Throw t, s1, tr1) =>
        let '(r, s2, tr2) := handler t s1 in (r, s2, (tr1 ++ tr2)%list)
    | done => done
    end.

(** [try { m } finally { cleanup }]: the cleanup runs on every exit; the
    outcome of [m] stands unless the cleanup itself throws. *)
Definition finally {A} (m : M A) (cleanup : M unit) : M A :=
  fun s =>
    let '(r, s1, tr1) := m s in
    match cleanup s1 with
    | (Return _, s2, tr2) => (r, s2, (tr1 ++ tr2)%list)
    | (Throw t, s2, tr2) => (Throw t, s2, (tr1 ++ tr2)%list)
    end.

Definition effect (ev : Event) : M unit := fun s => (Return tt, s, [(s, ev)]).

(** Resume with what a promise settled to. *)
Definition settle {A} (o : Outcome A) : M A := fun s => (o, s, []).

(** [await call]: the call is made, then the caller resumes with its answer. *)
Definition await {A} (ev : Event) (answer : Outcome A) : M A :=
  effect ev ;; settle answer.

Definition when (c : bool) (m : M unit) : M unit := if c then m else ret tt.

Definition setIsProcessing (b : bool) : M unit :=
  fun s => (Return tt, {| isProcessing := b; error := error s |}, []).

Definition setError (e : option string) : M unit :=
  fun s => (Return tt, {| isProcessing := isProcessing s; error := e |}, []).

Definition console_log (label : string) : M unit := effect (ConsoleLog label).

Definition console_error (label : string) (err : Thrown) : M unit :=
  effect (ConsoleError label err).

(** ** The hook *)

Section Hook.

Variable w : World.

Definition getDlpPublicKey : M string :=
  await (ReadContract (dataLiquidityPoolAddress w) "publicKey" [])
        (read_publicKey w).

Definition getFileJobIds (file : number) : M (list number) :=
  try_catch
    (jobIds <- await (ReadContract (teePoolAddress w) "fileJobIds" [ArgNum file])
                     (read_fileJobIds w file) ;;
     ret (map Number jobIds))
    (fun err =>
       console_error "Error getting file job IDs:" err ;;
       throw (ErrorObj "Failed to get job IDs for file")).

(** [!job || !job.teeAddress] *)
Definition job_unusable (job : option JobData) : bool :=
  match job with
  | None => true
  | Some j => negb (truthy (teeAddress j))
  end.

(** [job.teeAddress], read after the guard above *)
Definition job_teeAddress (job : option JobData) : maybe_string :=
  match job with
  | None => None
  | Some j => teeAddress j
  end.

Definition getTeeDetails (job_number : number) : M JobDetails :=
  try_catch
    (job <- await (ReadContract (teePoolAddress w) "jobs" [ArgNum job_number])
                  (read_jobs w job_number) ;;
     when (job_unusable job)
          (throw (ErrorObj "Job not found or missing TEE address")) ;;
     teeInfo <- await (ReadContract (teePoolAddress w) "tees"
                                    [ArgStr (job_teeAddress job)])
                      (read_tees w (job_teeAddress job)) ;;
     match teeInfo with
     | None => throw (ErrorObj "TEE information not found")
     | Some tee =>
         ret {| teeUrl := url tee;
                teePublicKey := publicKey tee;
                details_teeAddress := job_teeAddress job |}
     end)
    (fun err =>
       console_error "Error getting TEE details:" err ;;
       throw (ErrorObj "Failed to get TEE details for job")).

Definition proof_template_url : string :=
  "https://github.com/vana-com/vana-satya-proof-template/releases/download/v24/gsc-my-proof-24.tar.gz".

(** The object literal of [requestBody], before a key property is added. *)
Definition initial_body (latestJobId file : number) (nonce_text encryptionKey : string)
    (dlpKey : string) (params : EncryptionParameters) : ProofRequestBody :=
  {| job_id := latestJobId;
     file_id := file;
     nonce := nonce_text;
     proof_url := proof_template_url;
     encryption_seed := encryptionKey;
     env_vars := {| USER_EMAIL := "user@example.com" |};
     validate_permissions :=
       [ {| perm_address := dataLiquidityPoolAddress w;
            public_key := dlpKey;
            iv := ivHex params;
            ephemeral_key := ephemeralKeyHex params |} ];
     encrypted_encryption_key := None;
     encryption_key := None |}.

(** [if (jobDetails.teePublicKey) { ... } else { ... }] *)
Definition add_key (teeKey : maybe_string) (encryptionKey : string)
    (b : ProofRequestBody) : ProofRequestBody :=
  if truthy teeKey
  then set_encrypted_encryption_key encryptionKey b
  else set_encryption_key encryptionKey b.

(** What the [catch] of the workflow stores in [error]. *)
Definition error_text (err : Thrown) : string :=
  match err with
  | ErrorObj message => message
  | NonError _ => "Failed to process TEE proof"
  end.

(** [jobIds[jobIds.length - 1]], for an array whose first item is known. *)
Definition item_at_last_index (jobIds : list number) (first : number) : number :=
  List.nth (List.length jobIds - 1)%nat jobIds first.

(** The [try] block of [requestContributionProof]. *)
Definition requestContributionProof_try (file : number) (encryptionKey : string)
    : M ProofResult :=
  when (negb (truthy (address w)))
       (throw (ErrorObj "Wallet not connected")) ;;
  hash <- await (WriteContract (teePoolAddress w) "requestContributionProof" file)
                (writeContractAsync w (teePoolAddress w)
                                    "requestContributionProof" file) ;;
  contributionProofReceipt <-
    await (WaitForReceipt hash 1) (waitForTransactionReceipt w hash 1) ;;
  console_log "contributionProofReceipt" ;;
  jobIds <- getFileJobIds file ;;
  match jobIds with
  | [] => throw (ErrorObj "No jobs found for file")
  | first :: _ =>
      let latestJobId := item_at_last_index jobIds first in
      jobDetails <- getTeeDetails latestJobId ;;
      console_log "jobDetails" ;;
      params <- settle (getEncryptionParameters w) ;;
      let nonce_text := decimal (Date_now w) in
      dlpKey <- getDlpPublicKey ;;
      let requestBody :=
        add_key (teePublicKey jobDetails) encryptionKey
                (initial_body latestJobId file nonce_text encryptionKey
                              dlpKey params) in
      contributionProofResponse <-
        (let target := template (teeUrl jobDetails) ++ "/RunProof" in
         let init := {| method := "POST";
                        headers := [("Content-Type", "application/json")];
                        body := requestBody |} in
         await (Fetch target init) (fetch w target init)) ;;
      if negb (ok contributionProofResponse) then
        errorData <- settle (json contributionProofResponse) ;;
        throw (ErrorObj ("TEE request failed: " ++ JSON_stringify errorData))
      else
        data <- settle (json contributionProofResponse) ;;
        ret {| fileId := file;
               jobId := latestJobId;
               proofData := data;
               txHash := transactionHash contributionProofReceipt |}
  end.

(** Its [catch (err)] block. *)
Definition requestContributionProof_catch (err : Thrown) : M ProofResult :=
  console_error "Error in proof process:" err ;;
  setError (Some (error_text err)) ;;
  throw err.

Definition requestContributionProof (file : number) (encryptionKey : string)
    : M ProofResult :=
  setIsProcessing true ;;
  setError None ;;
  finally
    (try_catch (requestContributionProof_try file encryptionKey)
               requestContributionProof_catch)
    (setIsProcessing false).

End Hook.

(** ** Observing a run *)

Definition Run (A : Type) : Type := (Outcome A * HookState * Trace)%type.

Definition outcome_of {A} (r : Run A) : Outcome A := fst (fst r).
Definition final_state {A} (r : Run A) : HookState := snd (fst r).
Definition trace_of {A} (r : Run A) : Trace := snd r.

(** Contract writes, contract reads, receipt waits and HTTP calls, as opposed
    to console output. *)
Definition is_remote_call (ev : Event) : bool :=
  match ev with
  | WriteContract _ _ _ | WaitForReceipt _ _ | ReadContract _ _ _ | Fetch _ _ => true
  | ConsoleLog _ | ConsoleError _ _ => false
  end.

Definition is_http_call (ev : Event) : bool :=
  match ev with
  | Fetch _ _ => true
  | _ => false
  end.

(** The state cells every effect of a call runs under. *)
Definition during_call : HookState := {| isProcessing := true; error := None |}.

(** A computation that calls no setter: it ends in the state it started in
    and stamps each of its effects with that state. *)
Definition Stable {A} (m : M A) : Prop :=
  forall s, final_state (m s) = s /\
            forall st ev, In (st, ev) (trace_of (m s)) -> st = s.

Create HintDb stable.

(** The collaborator answers under which the workflow gets as far as sending
    [init] to [target]: every step before the HTTP call has succeeded. *)
Inductive Dispatch (w : World) (file : number) (key : string)
    (target : string) (init : RequestInit) (receipt : Receipt)
    (latest : number) (tee : TeeData) : Prop :=
| dispatch_intro (hash : string) (raw : list Z) (first : number)
    (rest : list number) (job : option JobData)
    (params : EncryptionParameters) (dlpKey : string) :
    truthy (address w) = true ->
    writeContractAsync w (teePoolAddress w) "requestContributionProof" file
      = Return hash ->
    waitForTransactionReceipt w hash 1 = Return receipt ->
    read_fileJobIds w file = Return raw ->
    map Number raw = first :: rest ->
    latest = item_at_last_index (first :: rest) first ->
    read_jobs w latest = Return job ->
    job_unusable job = false ->
    read_tees w (job_teeAddress job) = Return (Some tee) ->
    getEncryptionParameters w = Return params ->
    read_publicKey w = Return dlpKey ->
    target = template (url tee) ++ "/RunProof" ->
    init = {| method := "POST";
              headers := [("Content-Type", "application/json")];
              body := add_key (publicKey tee) key
                        (initial_body w latest file (decimal (Date_now w)) key
                                      dlpKey params) |} ->
    Dispatch w file key target init receipt latest tee.

(** ** Sample worlds *)

Module Sample.

Definition pool : string := "0xPOOL".
Definition dlp : string := "0xDLP".
Definition tee_address : maybe_string := Some "0xTEE".
Definition key : string := "secret-key".
Definition params : EncryptionParameters :=
  {| ivHex := "0a0b"; ephemeralKeyHex := "0c0d" |}.
Definition receipt : Receipt := {| transactionHash := "0xHASH" |}.
Definition clock : Z := 1700000000000.

Definition world (account : maybe_string) (submitted : Outcome string)
    (ids : Outcome (list Z)) (job : Outcome (option JobData))
    (tee : Outcome (option TeeData)) (reply : Outcome Response) : World :=
  {| address := account;
     teePoolAddress := pool;
     dataLiquidityPoolAddress := dlp;
     writeContractAsync := fun _ _ _ => submitted;
     waitForTransactionReceipt := fun _ _ => Return receipt;
     read_fileJobIds := fun _ => ids;
     read_jobs := fun _ => job;
     read_tees := fun _ => tee;
     read_publicKey := Return "0xDLPKEY";
     getEncryptionParameters := Return params;
     Date_now := clock;
     fetch := fun _ _ => reply |}.

Definition job : option JobData := Some {| teeAddress := tee_address |}.
Definition tee_with_key : TeeData :=
  {| url := Some "https://tee.example"; publicKey := Some "0xTEEKEY" |}.
Definition tee_without_key : TeeData :=
  {| url := Some "https://tee.example"; publicKey := None |}.

Definition body_ok : Json := JObj [("ok", JBool true)].
Definition body_bad_request : Json := JObj [("error", JStr "bad request")].
Definition reply_200 : Response := {| status := 200; json := Return body_ok |}.
Definition reply_500 : Response :=
  {| status := 500; json := Return body_bad_request |}.

(** Job ids out of numeric order; the last one is neither largest nor
    smallest. *)
Definition ids : list Z := [7; 3; 5].

Definition connected (tee : Outcome (option TeeData)) (reply : Outcome Response)
    : World :=
  world (Some "0xUSER") (Return "0xHASH") (Return ids) (Return job) tee reply.

Definition happy : World := connected (Return (Some tee_with_key)) (Return reply_200).
Definition happy_no_key : World :=
  connected (Return (Some tee_without_key)) (Return reply_200).
Definition rejected : World := connected (Return (Some tee_with_key)) (Return reply_500).
Definition disconnected : World :=
  world None (Return "0xHASH") (Return ids) (Return job)
        (Return (Some tee_with_key)) (Return reply_200).
Definition no_jobs : World :=
  world (Some "0xUSER") (Return "0xHASH") (Return []) (Return job)
        (Return (Some tee_with_key)) (Return reply_200).
Definition missing_job : World :=
  world (Some "0xUSER") (Return "0xHASH") (Return ids) (Return None)
        (Return (Some tee_with_key)) (Return reply_200).
Definition job_without_tee : World :=
  world (Some "0xUSER") (Return "0xHASH") (Return ids)
        (Return (Some {| teeAddress := None |}))
        (Return (Some tee_with_key)) (Return reply_200).
Definition missing_tee : World := connected (Return None) (Return reply_200).
Definition read_failure : World :=
  world (Some "0xUSER") (Return "0xHASH") (Return ids)
        (Throw (ErrorObj "execution reverted"))
        (Return (Some tee_with_key)) (Return reply_200).
Definition wallet_refuses : World :=
  world (Some "0xUSER") (Throw (NonError (JStr "user rejected"))) (Return ids)
        (Return job) (Return (Some tee_with_key)) (Return reply_200).

Definition idle : HookState := {| isProcessing := false; error := None |}.
Definition failed_before : HookState :=
  {| isProcessing := false; error := Some "No jobs found for file" |}.

(** The request the sample worlds receive for file 9. *)
Definition init_for (w : World) (teeKey : maybe_string) : RequestInit :=
  {| method := "POST";
     headers := [("Content-Type", "application/json")];
     body := add_key teeKey key
               (initial_body w (Num 5) (Num 9) (decimal clock) key
                             "0xDLPKEY" params) |}.

Definition target : string := "https://tee.example/RunProof".

(** The state cells while the request is in flight. *)
Definition during_fetch : HookState := {| isProcessing := true; error := None |}.

End Sample.

(** ** Counting and classifying effects *)

Definition events (tr : Trace) : list Event := map snd tr.

Definition count (p : Event -> bool) (tr : Trace) : nat :=
  List.length (filter p (events tr)).

Definition is_contract_write (ev : Event) : bool :=
  match ev with
  | WriteContract _ _ _ => true
  | _ => false
  end.

(** Contract reads and the HTTP call: the steps that come after the
    transaction. *)
Definition follows_transaction (ev : Event) : bool :=
  match ev with
  | ReadContract _ _ _ | Fetch _ _ => true
  | _ => false
  end.

(** The console line written by the [catch] block of the workflow. *)
Definition is_catch_line (ev : Event) : bool :=
  match ev with
  | ConsoleError label _ => String.eqb label "Error in proof process:"
  | _ => false
  end.

(** The effects of a call that gets as far as the HTTP call, in order. *)
Definition full_trace (w : World) (file : number) (hash : string)
    (latest : number) (job : option JobData) (target : string)
    (init : RequestInit) (s : HookState) : Trace :=
  [ (s, WriteContract (teePoolAddress w) "requestContributionProof" file);
    (s, WaitForReceipt hash 1);
    (s, ConsoleLog "contributionProofReceipt");
    (s, ReadContract (teePoolAddress w) "fileJobIds" [ArgNum file]);
    (s, ReadContract (teePoolAddress w) "jobs" [ArgNum latest]);
    (s, ReadContract (teePoolAddress w) "tees" [ArgStr (job_teeAddress job)]);
    (s, ConsoleLog "jobDetails");
    (s, ReadContract (dataLiquidityPoolAddress w) "publicKey" []);
    (s, Fetch target init) ].

(** ** Further sample worlds *)

Module Edge.

(** [Sample.happy] with some answers replaced. *)
Definition world (confirmed : Outcome Receipt) (ids : Outcome (list Z))
    (tee : Outcome (option TeeData)) (generated : Outcome EncryptionParameters)
    (pooled : Outcome string) (reply : Outcome Response) : World :=
  {| address := Some "0xUSER";
     teePoolAddress := Sample.pool;
     dataLiquidityPoolAddress := Sample.dlp;
     writeContractAsync := fun _ _ _ => Return "0xHASH";
     waitForTransactionReceipt := fun _ _ => confirmed;
     read_fileJobIds := fun _ => ids;
     read_jobs := fun _ => Return Sample.job;
     read_tees := fun _ => tee;
     read_publicKey := pooled;
     getEncryptionParameters := generated;
     Date_now := Sample.clock;
     fetch := fun _ _ => reply |}.

Definition usual (pooled : Outcome string) (reply : Outcome Response) : World :=
  world (Return Sample.receipt) (Return Sample.ids)
        (Return (Some Sample.tee_with_key)) (Return Sample.params) pooled reply.

Definition timeout : Thrown := ErrorObj "timed out".
Definition html_body : Thrown := ErrorObj "Unexpected token < in JSON".

Definition never_confirmed : World :=
  world (Throw timeout) (Return Sample.ids) (Return (Some Sample.tee_with_key))
        (Return Sample.params) (Return "0xDLPKEY") (Return Sample.reply_200).
Definition ids_unreadable : World :=
  world (Return Sample.receipt) (Throw (NonError JNull))
        (Return (Some Sample.tee_with_key)) (Return Sample.params)
        (Return "0xDLPKEY") (Return Sample.reply_200).
Definition pool_key_unreadable : World :=
  usual (Throw timeout) (Return Sample.reply_200).
Definition unreachable : World := usual (Return "0xDLPKEY") (Throw timeout).
Definition bad_gateway : World :=
  usual (Return "0xDLPKEY") (Return {| status := 502; json := Throw html_body |}).
Definition tee_without_url : World :=
  world (Return Sample.receipt) (Return Sample.ids)
        (Return (Some {| url := None; publicKey := None |}))
        (Return Sample.params) (Return "0xDLPKEY") (Return Sample.reply_200).


(** [Sample.happy] one millisecond later. *)
Definition later : World :=
  {| address := Some "0xUSER";
     teePoolAddress := Sample.pool;
     dataLiquidityPoolAddress := Sample.dlp;
     writeContractAsync := fun _ _ _ => Return "0xHASH";
     waitForTransactionReceipt := fun _ _ => Return Sample.receipt;
     read_fileJobIds := fun _ => Return Sample.ids;
     read_jobs := fun _ => Return Sample.job;
     read_tees := fun _ => Return (Some Sample.tee_with_key);
     read_publicKey := Return "0xDLPKEY";
     getEncryptionParameters := Return Sample.params;
     Date_now := Sample.clock + 1;
     fetch := fun _ _ => Return Sample.reply_200 |}.

(** The request [later] receives for file 9. *)
Definition later_init : RequestInit :=
  {| method := "POST";
     headers := [("Content-Type", "application/json")];
     body := add_key (Some "0xTEEKEY") Sample.key
               (initial_body later (Num 5) (Num 9) (decimal (Sample.clock + 1))
                             Sample.key "0xDLPKEY" Sample.params) |}.

(** Two job ids just above 2^53: unsafe integers for a JavaScript number. *)
Definition large_ids : list Z := [2 ^ 53 + 1; 2 ^ 53 + 3].
Definition large : World :=
  world (Return Sample.receipt) (Return large_ids)
        (Return (Some Sample.tee_with_key)) (Return Sample.params)
        (Return "0xDLPKEY") (Return Sample.reply_200).

End Edge.

(** * Properties *)

(** ** Strings and numbers *)

Lemma prefix_append (t rest : string) : prefix t (t ++ rest) = true.
Proof.
  induction t as [|c t IH]; cbn [prefix String.append].
  - destruct rest; reflexivity.
  - destruct (ascii_dec c c) as [_|ne]; [exact IH | now elim ne].
Qed.

Lemma includes_append (before t rest : string) :
  includes (before ++ t ++ rest) t = true.
Proof.
  induction before as [|c before IH]; cbn [String.append].
  - destruct (t ++ rest) eqn:E; cbn [includes]; rewrite <- E, prefix_append;
      reflexivity.
  - cbn [includes]. rewrite IH. apply orb_true_r.
Qed.

Lemma includes_suffix (before t : string) : includes (before ++ t) t = true.
Proof.
  replace t with (t ++ EmptyString) at 1.
  - apply includes_append.
  - induction t as [|c t IH]; cbn [String.append]; [reflexivity | now rewrite IH].
Qed.

(** Below 2^53 [Number] is exact: a job id of that size survives the
    conversion from bigint unchanged. *)
Lemma Number_exact (b : Z) : Z.abs b < 2 ^ 53 -> Number b = Num b.
Proof.
  intros small. unfold Number, round_magnitude.
  destruct (Z.ltb_spec (Z.abs b) (2 ^ 53)) as [_|big]; [|lia].
  destruct (Z.leb_spec (2 ^ 1024) (Z.abs b)) as [huge|_].
  - assert (2 ^ 53 < 2 ^ 1024) by (apply Z.pow_lt_mono_r; lia). lia.
  - f_equal. rewrite Z.mul_comm. apply Z.abs_sgn.
Qed.

Lemma item_at_last_index_is_last (l : list number) (first d : number) :
  l <> [] -> item_at_last_index l first = List.last l d.
Proof.
  unfold item_at_last_index. intros nonempty.
  induction l as [|x [|y rest] IH]; [congruence | reflexivity |].
  replace (List.length (x :: y :: rest) - 1)%nat
    with (S (List.length (y :: rest) - 1)) by (cbn [List.length]; lia).
  change (List.nth (List.length (y :: rest) - 1) (y :: rest) first
          = List.last (y :: rest) d).
  apply IH. discriminate.
Qed.

Lemma last_map_Number (raw : list Z) (d : Z) :
  List.last (map Number raw) (Number d) = Number (List.last raw d).
Proof.
  induction raw as [|x [|y rest] IH]; [reflexivity | reflexivity |].
  exact IH.
Qed.

(** ** Computations that leave the state cells alone

    Nothing inside the [try] block calls a setter: it ends in the state it
    started in, and each of its effects is stamped with that state
    ([Stable]). *)

Lemma stable_ret {A} (a : A) : Stable (ret a).
Proof. intros s. split; [reflexivity | intros st ev []]. Qed.

Lemma stable_throw {A} (t : Thrown) : Stable (@throw A t).
Proof. intros s. split; [reflexivity | intros st ev []]. Qed.

Lemma stable_settle {A} (o : Outcome A) : Stable (settle o).
Proof. intros s. split; [reflexivity | intros st ev []]. Qed.

Lemma stable_effect (e : Event) : Stable (effect e).
Proof.
  intros s. split; [reflexivity |].
  intros st ev [same | []]. now inversion same.
Qed.

Lemma stable_bind {A B} (m : M A) (f : A -> M B) :
  Stable m -> (forall a, Stable (f a)) -> Stable (bind m f).
Proof.
  intros Hm Hf s. unfold bind, final_state, trace_of.
  destruct (Hm s) as [Hs Htr]. unfold final_state, trace_of in Hs, Htr.
  destruct (m s) as [[[a|t] s1] tr1]; cbn [fst snd] in *; subst s1.
  - destruct (Hf a s) as [Hs' Htr']. unfold final_state, trace_of in Hs', Htr'.
    destruct (f a s) as [[r s2] tr2]; cbn [fst snd] in *.
    split; [assumption |].
    intros st ev [early | late]%in_app_or; eauto.
  - split; [reflexivity | assumption].
Qed.

Lemma stable_try_catch {A} (m : M A) (handler : Thrown -> M A) :
  Stable m -> (forall t, Stable (handler t)) -> Stable (try_catch m handler).
Proof.
  intros Hm Hh s. unfold try_catch, final_state, trace_of.
  destruct (Hm s) as [Hs Htr]. unfold final_state, trace_of in Hs, Htr.
  destruct (m s) as [[[a|t] s1] tr1]; cbn [fst snd] in *; subst s1.
  - split; [reflexivity | assumption].
  - destruct (Hh t s) as [Hs' Htr']. unfold final_state, trace_of in Hs', Htr'.
    destruct (handler t s) as [[r s2] tr2]; cbn [fst snd] in *.
    split; [assumption |].
    intros st ev [early | late]%in_app_or; eauto.
Qed.

Lemma stable_when (c : bool) (m : M unit) : Stable m -> Stable (when c m).
Proof. destruct c; [trivial | intros _; apply stable_ret]. Qed.

Lemma stable_await {A} (e : Event) (o : Outcome A) : Stable (await e o).
Proof.
  apply stable_bind; [apply stable_effect | intros _; apply stable_settle].
Qed.

#[local] Hint Resolve stable_ret stable_throw stable_settle stable_effect
  stable_bind stable_try_catch stable_when stable_await : stable.

Lemma stable_getDlpPublicKey (w : World) : Stable (getDlpPublicKey w).
Proof. unfold getDlpPublicKey. auto with stable. Qed.

Lemma stable_getFileJobIds (w : World) (file : number) :
  Stable (getFileJobIds w file).
Proof.
  unfold getFileJobIds, console_error.
  apply stable_try_catch; intros; auto 6 with stable.
Qed.

Lemma stable_getTeeDetails (w : World) (n : number) : Stable (getTeeDetails w n).
Proof.
  unfold getTeeDetails, console_error.
  apply stable_try_catch; intros; [| auto 6 with stable].
  apply stable_bind; [auto with stable |]. intros job.
  apply stable_bind; [auto with stable |]. intros _.
  apply stable_bind; [auto with stable |]. intros [tee|]; auto with stable.
Qed.

#[local] Hint Resolve stable_getDlpPublicKey stable_getFileJobIds
  stable_getTeeDetails : stable.

Lemma stable_try_block (w : World) (file : number) (key : string) :
  Stable (requestContributionProof_try w file key).
Proof.
  unfold requestContributionProof_try, console_log.
  apply stable_bind; [auto with stable |]. intros _.
  apply stable_bind; [auto with stable |]. intros hash.
  apply stable_bind; [auto with stable |]. intros receipt.
  apply stable_bind; [auto with stable |]. intros _.
  apply stable_bind; [auto with stable |]. intros [|first rest];
    [auto with stable |].
  apply stable_bind; [auto with stable |]. intros details.
  apply stable_bind; [auto with stable |]. intros _.
  apply stable_bind; [auto with stable |]. intros params.
  apply stable_bind; [auto with stable |]. intros dlpKey.
  apply stable_bind; [cbv zeta; auto with stable |]. intros response.
  destruct (negb (ok response)); auto 6 with stable.
Qed.

(** ** The shape of every run

    Whatever state the call starts in, its [try] block runs under
    [during_call]; the wrapper then either passes the result through or logs,
    records and re-throws, and in both cases clears the flag. *)

Lemma run_shape (w : World) (file : number) (key : string) (s : HookState) :
  requestContributionProof w file key s =
  let inner := requestContributionProof_try w file key during_call in
  match outcome_of inner with
  | Return a =>
      (Return a, {| isProcessing := false; error := None |}, trace_of inner)
  | Throw t =>
      (Throw t,
       {| isProcessing := false; error := Some (error_text t) |},
       (trace_of inner
          ++ [(during_call, ConsoleError "Error in proof process:" t)])%list)
  end.
Proof.
  cbv zeta.
  destruct (stable_try_block w file key during_call) as [Hs _].
  unfold requestContributionProof, requestContributionProof_catch, finally,
    try_catch, bind, setIsProcessing, setError, console_error, effect, throw.
  cbn [isProcessing error app].
  fold during_call.
  unfold final_state, outcome_of, trace_of in *.
  destruct (requestContributionProof_try w file key during_call)
    as [[[a|t] s1] tr]; cbn [fst snd] in *; subst s1; cbn [isProcessing error app].
  - now rewrite app_nil_r.
  - now rewrite app_nil_r.
Qed.

(** ** Stepping through the [try] block *)

Ltac unfold_hook :=
  cbv beta iota zeta delta
    [requestContributionProof_try getFileJobIds getTeeDetails getDlpPublicKey
     bind ret throw try_catch effect settle await when
     console_log console_error outcome_of final_state trace_of
     fst snd negb List.app].

(** Case analysis on the next collaborator answer the goal depends on. *)
Ltac oracle :=
  match goal with
  | |- context [truthy (address ?w)] => destruct (truthy (address w)) eqn:?
  | |- context [writeContractAsync ?w ?a ?f ?x] =>
      destruct (writeContractAsync w a f x) eqn:?
  | |- context [waitForTransactionReceipt ?w ?h ?c] =>
      destruct (waitForTransactionReceipt w h c) eqn:?
  | |- context [read_fileJobIds ?w ?x] => destruct (read_fileJobIds w x) eqn:?
  | |- context [match map Number ?l with _ => _ end] =>
      destruct (map Number l) eqn:?
  | |- context [read_jobs ?w ?x] => destruct (read_jobs w x) eqn:?
  | |- context [job_unusable ?j] => destruct (job_unusable j) eqn:?
  | |- context [read_tees ?w ?x] => destruct (read_tees w x) as [[?|]|?] eqn:?
  | |- context [getEncryptionParameters ?w] =>
      destruct (getEncryptionParameters w) eqn:?
  | |- context [read_publicKey ?w] => destruct (read_publicKey w) eqn:?
  | |- context [fetch ?w ?u ?i] => destruct (fetch w u i) eqn:?
  | |- context [ok ?r] => destruct (ok r) eqn:?
  | |- context [json ?r] => destruct (json r) eqn:?
  end.

Ltac walk := unfold_hook; repeat (oracle; unfold_hook).

(** Membership in a trace written out as a list. *)
Ltac pick H :=
  cbn [In] in H;
  repeat (destruct H as [H | H]; [try discriminate H |]);
  try contradiction.

(** Point at an element of a list written out in full. *)
Ltac find_event := repeat first [left; reflexivity | right].

Lemma ok_iff_2xx (r : Response) :
  ok r = true <-> 200 <= status r <= 299.
Proof. unfold ok. rewrite andb_true_iff, !Z.leb_le. tauto. Qed.

(** C9: the processing flag is true under every effect of a call and false
    once the call has ended, whether it returned or threw; the indicator the
    hook exposes, [isProcessing || isPending], is therefore true during the
    call and afterwards whatever the wallet library reports. *)
Theorem processing_flag_brackets_the_call
    (w : World) (file : number) (key : string) (s : HookState) :
  let r := requestContributionProof w file key s in
  trace_of r <> [] /\
  (forall st ev, In (st, ev) (trace_of r) ->
     isProcessing st = true /\
     forall pending, exposed_isProcessing pending st = true) /\
  isProcessing (final_state r) = false /\
  (forall pending, exposed_isProcessing pending (final_state r) = pending).
Proof.
  cbv zeta. rewrite run_shape. cbv zeta.
  destruct (stable_try_block w file key during_call) as [_ stamped].
  assert (under : forall st ev,
             In (st, ev) (trace_of (requestContributionProof_try w file key during_call)) ->
             isProcessing st = true /\
             forall pending, exposed_isProcessing pending st = true).
  { intros st ev here. rewrite (stamped st ev here). split; reflexivity. }
  assert (first_effect :
            trace_of (requestContributionProof_try w file key during_call) <> [] \/
            exists t, outcome_of (requestContributionProof_try w file key during_call)
                      = Throw t).
  { walk; try (left; discriminate); right; eexists; reflexivity. }
  destruct (outcome_of (requestContributionProof_try w file key during_call))
    as [a|t]; unfold final_state; cbn [fst snd isProcessing];
    (split; [| split; [| split; [reflexivity | intros []; reflexivity]]]).
  - destruct first_effect as [some | [t absurd]]; [exact some | discriminate].
  - exact under.
  - unfold trace_of at 1; cbn [snd]. intros empty.
    apply app_eq_nil in empty. destruct empty; discriminate.
  - unfold trace_of at 1; cbn [snd]. intros st ev here.
    apply in_app_or in here. destruct here as [early | [last | []]].
    + apply (under st ev early).
    + inversion last. split; reflexivity.
Qed.

(** The flag around a run that returns and a run the executor rejects. *)
Lemma processing_flag_witness :
  (isProcessing Sample.during_fetch = true /\
   forall pending, exposed_isProcessing pending Sample.during_fetch = true) /\
  isProcessing
    (final_state (requestContributionProof Sample.rejected (Num 9) Sample.key
                                           Sample.idle)) = false.
Proof.
  split.
  - destruct (processing_flag_brackets_the_call Sample.happy (Num 9) Sample.key
                Sample.idle) as [_ [during _]].
    apply (during Sample.during_fetch
                  (Fetch Sample.target
                         (Sample.init_for Sample.happy (Some "0xTEEKEY")))).
    vm_compute. find_event.
  - apply (processing_flag_brackets_the_call Sample.rejected (Num 9) Sample.key
             Sample.idle).
Defined.

(** C10: every effect of a call runs with the error cell already reset to
    null, whatever a previous call left there; when the [try] block throws,
    the caller receives that same value and the error cell holds its message
    if it is an [Error], the generic text otherwise; a call that returns
    leaves the cell null. *)
Theorem error_state_reset_then_set
    (w : World) (file : number) (key : string) (s : HookState) :
  let r := requestContributionProof w file key s in
  (forall st ev, In (st, ev) (trace_of r) -> error st = None) /\
  (forall t,
     outcome_of (requestContributionProof_try w file key during_call) = Throw t ->
     outcome_of r = Throw t /\ error (final_state r) = Some (error_text t)) /\
  (forall t, outcome_of r = Throw t ->
     error (final_state r) = Some (error_text t)) /\
  (forall a, outcome_of r = Return a -> error (final_state r) = None) /\
  (forall message, error_text (ErrorObj message) = message) /\
  (forall v, error_text (NonError v) = "Failed to process TEE proof").
Proof.
  cbv zeta. rewrite run_shape. cbv zeta.
  destruct (stable_try_block w file key during_call) as [_ stamped].
  destruct (outcome_of (requestContributionProof_try w file key during_call))
    as [a|t]; unfold outcome_of at 1 2 3, final_state, trace_of at 1;
    cbn [fst snd error].
  - repeat split; try reflexivity; try discriminate.
    intros st ev here. now rewrite (stamped st ev here).
  - split; [| split; [| split; [| split; [discriminate | split; reflexivity]]]].
    + intros st ev here. apply in_app_or in here.
      destruct here as [early | [last | []]].
      * now rewrite (stamped st ev early).
      * now inversion last.
    + intros t' same. inversion same. split; reflexivity.
    + intros t' same. inversion same. reflexivity.
Qed.

(** A call that follows a failed one: the wallet rejects with a value that is
    not an [Error]. *)
Lemma error_state_witness :
  error Sample.during_fetch = None /\
  outcome_of (requestContributionProof Sample.wallet_refuses (Num 9) Sample.key
                                       Sample.failed_before)
  = Throw (NonError (JStr "user rejected")) /\
  error (final_state (requestContributionProof Sample.wallet_refuses (Num 9)
                                               Sample.key Sample.failed_before))
  = Some "Failed to process TEE proof".
Proof.
  split.
  - destruct (error_state_reset_then_set Sample.happy (Num 9) Sample.key
                Sample.failed_before) as [during _].
    apply (during Sample.during_fetch
                  (Fetch Sample.target
                         (Sample.init_for Sample.happy (Some "0xTEEKEY")))).
    vm_compute. find_event.
  - destruct (error_state_reset_then_set Sample.wallet_refuses (Num 9) Sample.key
                Sample.failed_before) as [_ [rethrown _]].
    apply (rethrown (NonError (JStr "user rejected"))). reflexivity.
Defined.

(** C7: with no connected address the call throws "Wallet not connected" at
    once: its only effect is the console line of the [catch] block, so no
    contract write, contract read, receipt wait or HTTP call is made. *)
Theorem wallet_not_connected_fails_first
    (w : World) (file : number) (key : string) (s : HookState) :
  truthy (address w) = false ->
  requestContributionProof w file key s =
    (Throw (ErrorObj "Wallet not connected"),
     {| isProcessing := false; error := Some "Wallet not connected" |},
     [(during_call,
       ConsoleError "Error in proof process:" (ErrorObj "Wallet not connected"))])
  /\ forall st ev,
       In (st, ev) (trace_of (requestContributionProof w file key s)) ->
       is_remote_call ev = false.
Proof.
  intros disconnected.
  assert (run : requestContributionProof w file key s =
                (Throw (ErrorObj "Wallet not connected"),
                 {| isProcessing := false; error := Some "Wallet not connected" |},
                 [(during_call,
                   ConsoleError "Error in proof process:"
                                (ErrorObj "Wallet not connected"))])).
  { rewrite run_shape. unfold_hook. rewrite disconnected. reflexivity. }
  split; [exact run |].
  rewrite run. intros st ev [only | []]. now inversion only.
Qed.

Lemma wallet_not_connected_witness :
  outcome_of (requestContributionProof Sample.disconnected (Num 9) Sample.key
                                       Sample.idle)
  = Throw (ErrorObj "Wallet not connected").
Proof.
  set (r := requestContributionProof Sample.disconnected (Num 9) Sample.key Sample.idle).
  destruct (wallet_not_connected_fails_first Sample.disconnected (Num 9) Sample.key
              Sample.idle) as [run _]; [reflexivity |].
  unfold r. rewrite run. reflexivity.
Defined.

(** ** Reaching the HTTP call *)

(** The wrapper adds no HTTP call of its own. *)
Lemma fetch_event_in_try_block (w : World) (file : number) (key : string)
    (s st : HookState) (target : string) (init : RequestInit) :
  In (st, Fetch target init) (trace_of (requestContributionProof w file key s)) ->
  In (st, Fetch target init)
     (trace_of (requestContributionProof_try w file key during_call)).
Proof.
  rewrite run_shape. cbv zeta.
  destruct (outcome_of (requestContributionProof_try w file key during_call));
    unfold trace_of at 1; cbn [snd]; [trivial |].
  intros [early | [last | []]]%in_app_or; [exact early | discriminate last].
Qed.

(** An HTTP call in the trace means every earlier step succeeded. *)
Lemma fetch_event_dispatch (w : World) (file : number) (key : string)
    (s st : HookState) (target : string) (init : RequestInit) :
  In (st, Fetch target init) (trace_of (requestContributionProof_try w file key s)) ->
  exists receipt latest tee, Dispatch w file key target init receipt latest tee.
Proof.
  walk; intros here; pick here.
  all: inversion here; subst; do 3 eexists; econstructor; eauto.
Qed.

(** What the [try] block ends with once the request has been sent. *)
Lemma dispatch_outcome (w : World) (file : number) (key : string)
    (s : HookState) (target : string) (init : RequestInit) (receipt : Receipt)
    (latest : number) (tee : TeeData) :
  Dispatch w file key target init receipt latest tee ->
  outcome_of (requestContributionProof_try w file key s) =
  match fetch w target init with
  | Throw t => Throw t
  | Return response =>
      match json response with
      | Throw t => Throw t
      | Return data =>
          if ok response
          then Return {| fileId := file; jobId := latest; proofData := data;
                         txHash := transactionHash receipt |}
          else Throw (ErrorObj ("TEE request failed: " ++ JSON_stringify data))
      end
  end.
Proof.
  intros [hash raw first rest job params dlpKey
            connected submitted confirmed listed converted chosen
            found usable resolved generated pooled -> ->].
  unfold_hook.
  rewrite connected, submitted, confirmed, listed, converted, <- chosen, found,
    usable, resolved, generated, pooled.
  unfold_hook.
  destruct (fetch w _ _) as [response|t]; unfold_hook; [| reflexivity].
  destruct (ok response), (json response); reflexivity.
Qed.

Lemma dispatch_job_id (w : World) (file : number) (key : string)
    (target : string) (init : RequestInit) (receipt : Receipt)
    (latest : number) (tee : TeeData) :
  Dispatch w file key target init receipt latest tee ->
  job_id (body init) = latest /\
  exists raw, read_fileJobIds w file = Return raw /\ raw <> [] /\
              latest = List.last (map Number raw) (Num 0).
Proof.
  intros [hash raw first rest job params dlpKey
            _ _ _ listed converted chosen _ _ _ _ _ _ ->].
  split.
  - cbn [body]. unfold add_key. destruct (truthy (publicKey tee)); reflexivity.
  - exists raw. split; [exact listed |]. split.
    + intros ->. discriminate converted.
    + rewrite converted, chosen. apply item_at_last_index_is_last. discriminate.
Qed.

Lemma add_key_fields (teeKey : maybe_string) (key : string) (w : World)
    (latest file : number) (nonce_text dlpKey : string)
    (params : EncryptionParameters) :
  let b := add_key teeKey key
             (initial_body w latest file nonce_text key dlpKey params) in
  if truthy teeKey
  then encrypted_encryption_key b = Some key /\ encryption_key b = None
  else encrypted_encryption_key b = None /\ encryption_key b = Some key.
Proof. cbv zeta. unfold add_key. destruct (truthy teeKey); split; reflexivity. Qed.

(** ** The payload *)

(** C1: every request the workflow sends carries exactly one of
    [encrypted_encryption_key] and [encryption_key]: the former alone when the
    public key of the executor resolved for the job is present (truthy), the
    latter alone otherwise. *)
Theorem payload_has_exactly_one_key
    (w : World) (file : number) (key : string) (s st : HookState)
    (target : string) (init : RequestInit) :
  In (st, Fetch target init) (trace_of (requestContributionProof w file key s)) ->
  key_fields (body init) = 1%nat /\
  exists job tee,
    read_jobs w (job_id (body init)) = Return job /\
    read_tees w (job_teeAddress job) = Return (Some tee) /\
    if truthy (publicKey tee)
    then encrypted_encryption_key (body init) <> None /\
         encryption_key (body init) = None
    else encrypted_encryption_key (body init) = None /\
         encryption_key (body init) <> None.
Proof.
  intros sent. apply fetch_event_in_try_block in sent.
  destruct (fetch_event_dispatch _ _ _ _ _ _ _ sent) as (receipt & latest & tee & reached).
  destruct (dispatch_job_id reached) as [chosen _].
  destruct reached as [hash raw first rest job params dlpKey
                         _ _ _ _ _ _ found _ resolved _ _ _ ->].
  pose proof (add_key_fields (publicKey tee) key w latest file
                             (decimal (Date_now w)) dlpKey params) as fields.
  cbv zeta in fields. cbn [body] in *.
  split.
  - unfold key_fields. destruct (truthy (publicKey tee));
      destruct fields as [-> ->]; reflexivity.
  - exists job, tee. rewrite chosen. split; [exact found |].
    split; [exact resolved |].
    destruct (truthy (publicKey tee)); destruct fields as [-> ->];
      split; congruence.
Qed.

(** With an executor key the request carries the encrypted field only; with
    none, the plain field only. *)
Lemma payload_has_exactly_one_key_witness :
  key_fields (body (Sample.init_for Sample.happy (Some "0xTEEKEY"))) = 1%nat /\
  key_fields (body (Sample.init_for Sample.happy_no_key None)) = 1%nat.
Proof.
  split.
  - apply (@payload_has_exactly_one_key Sample.happy (Num 9) Sample.key
             Sample.idle Sample.during_fetch Sample.target).
    vm_compute. find_event.
  - apply (@payload_has_exactly_one_key Sample.happy_no_key (Num 9) Sample.key
             Sample.idle Sample.during_fetch Sample.target).
    vm_compute. find_event.
Defined.

(** C4: when the public key of the resolved executor is present, the
    [encrypted_encryption_key] of the request sent is the caller's
    [encryptionKey] itself; the value of the public key plays no part in the
    payload. *)
Theorem encrypted_field_is_the_raw_key
    (w : World) (file : number) (key : string) (s st : HookState)
    (target : string) (init : RequestInit)
    (job : option JobData) (tee : TeeData) :
  In (st, Fetch target init) (trace_of (requestContributionProof w file key s)) ->
  read_jobs w (job_id (body init)) = Return job ->
  read_tees w (job_teeAddress job) = Return (Some tee) ->
  truthy (publicKey tee) = true ->
  encrypted_encryption_key (body init) = Some key /\
  encryption_key (body init) = None /\
  forall other b,
    truthy other = true -> add_key other key b = add_key (publicKey tee) key b.
Proof.
  intros sent found resolved present. apply fetch_event_in_try_block in sent.
  destruct (fetch_event_dispatch _ _ _ _ _ _ _ sent) as (receipt & latest & tee' & reached).
  destruct (dispatch_job_id reached) as [chosen _].
  destruct reached as [hash raw first rest job' params dlpKey
                         _ _ _ _ _ _ found' _ resolved' _ _ _ ->].
  cbn [body] in *. rewrite chosen in found.
  assert (job' = job) by congruence. subst job'.
  assert (tee' = tee) by congruence. subst tee'.
  pose proof (add_key_fields (publicKey tee) key w latest file
                             (decimal (Date_now w)) dlpKey params) as fields.
  cbv zeta in fields. rewrite present in fields.
  destruct fields as [encrypted plain].
  split; [exact encrypted |]. split; [exact plain |].
  intros other b also. unfold add_key. now rewrite present, also.
Qed.

Lemma encrypted_field_is_the_raw_key_witness :
  encrypted_encryption_key (body (Sample.init_for Sample.happy (Some "0xTEEKEY")))
  = Some Sample.key.
Proof.
  apply (@encrypted_field_is_the_raw_key Sample.happy (Num 9) Sample.key
           Sample.idle Sample.during_fetch Sample.target
           (Sample.init_for Sample.happy (Some "0xTEEKEY"))
           Sample.job Sample.tee_with_key).
  - vm_compute. find_event.
  - reflexivity.
  - reflexivity.
  - reflexivity.
Defined.

(** ** Choosing the job *)

(** Every effect of a call is an effect of its [try] block, except the
    console line of the [catch] block. *)
Lemma event_in_try_block (w : World) (file : number) (key : string)
    (s st : HookState) (ev : Event) :
  In (st, ev) (trace_of (requestContributionProof w file key s)) ->
  In (st, ev) (trace_of (requestContributionProof_try w file key during_call))
  \/ exists t, ev = ConsoleError "Error in proof process:" t.
Proof.
  rewrite run_shape. cbv zeta.
  destruct (outcome_of (requestContributionProof_try w file key during_call));
    unfold trace_of at 1; cbn [snd]; [now left |].
  intros [early | [last | []]]%in_app_or; [now left | right].
  inversion last. now eexists.
Qed.

Lemma outcome_of_call (w : World) (file : number) (key : string) (s : HookState) :
  outcome_of (requestContributionProof w file key s)
  = outcome_of (requestContributionProof_try w file key during_call).
Proof.
  rewrite run_shape. cbv zeta.
  destruct (outcome_of (requestContributionProof_try w file key during_call));
    reflexivity.
Qed.

Lemma last_of_listed (raw : list Z) (first : number) (rest : list number) :
  map Number raw = first :: rest ->
  raw <> [] /\
  item_at_last_index (first :: rest) first = List.last (map Number raw) (Num 0).
Proof.
  intros converted. split.
  - intros ->. discriminate converted.
  - rewrite converted. apply item_at_last_index_is_last. discriminate.
Qed.

(** The job looked up is the last one listed. *)
Lemma jobs_read_target (w : World) (file : number) (key : string)
    (s st : HookState) (contract : string) (args : list Arg) :
  In (st, ReadContract contract "jobs" args)
     (trace_of (requestContributionProof_try w file key s)) ->
  exists raw, read_fileJobIds w file = Return raw /\ raw <> [] /\
              args = [ArgNum (List.last (map Number raw) (Num 0))].
Proof.
  walk; intros here; pick here.
  all: inversion here; subst.
  all: match goal with
       | listed : read_fileJobIds _ _ = Return ?raw,
         converted : map Number ?raw = _ |- _ =>
           exists raw; destruct (last_of_listed _ converted) as [nonempty <-];
           repeat split; assumption
       end.
Qed.

(** Once the job list is in, the lookup of the chosen job is made. *)
Lemma jobs_read_happens (w : World) (file : number) (key : string)
    (s : HookState) (hash : string) (receipt : Receipt) (raw : list Z) :
  truthy (address w) = true ->
  writeContractAsync w (teePoolAddress w) "requestContributionProof" file
    = Return hash ->
  waitForTransactionReceipt w hash 1 = Return receipt ->
  read_fileJobIds w file = Return raw ->
  raw <> [] ->
  In (s, ReadContract (teePoolAddress w) "jobs"
                      [ArgNum (List.last (map Number raw) (Num 0))])
     (trace_of (requestContributionProof_try w file key s)).
Proof.
  intros connected submitted confirmed listed nonempty.
  destruct (map Number raw) as [|first rest] eqn:converted.
  { destruct raw; [congruence | discriminate converted]. }
  destruct (last_of_listed _ converted) as [_ chosen]. rewrite converted in chosen.
  rewrite <- chosen.
  unfold_hook. rewrite connected, submitted, confirmed, listed, converted.
  walk; cbn [In]; auto 10.
Qed.

(** C2: whenever the job list read for the file is non-empty, the target job
    is its last element, whatever the order of the ids: that id is the one
    looked up in [jobs], the [job_id] of the request sent, and the [jobId] of
    the value returned. *)
Theorem latest_job_is_last_listed
    (w : World) (file : number) (key : string) (s : HookState) (raw : list Z) :
  read_fileJobIds w file = Return raw ->
  raw <> [] ->
  let r := requestContributionProof w file key s in
  let chosen := List.last (map Number raw) (Num 0) in
  chosen = Number (List.last raw 0) /\
  (forall st contract args,
     In (st, ReadContract contract "jobs" args) (trace_of r) ->
     args = [ArgNum chosen]) /\
  (forall st target init,
     In (st, Fetch target init) (trace_of r) -> job_id (body init) = chosen) /\
  (forall result, outcome_of r = Return result -> jobId result = chosen) /\
  (forall hash receipt,
     truthy (address w) = true ->
     writeContractAsync w (teePoolAddress w) "requestContributionProof" file
       = Return hash ->
     waitForTransactionReceipt w hash 1 = Return receipt ->
     In (during_call, ReadContract (teePoolAddress w) "jobs" [ArgNum chosen])
        (trace_of r)).
Proof.
  intros listed nonempty. cbv zeta.
  split; [| split; [| split; [| split]]].
  - change (Num 0) with (Number 0). apply last_map_Number.
  - intros st contract args here.
    destruct (event_in_try_block _ _ _ _ _ _ here) as [inner | [t absurd]];
      [| discriminate absurd].
    destruct (jobs_read_target _ _ _ _ _ _ _ inner) as (raw' & listed' & _ & ->).
    congruence.
  - intros st target init sent. apply fetch_event_in_try_block in sent.
    destruct (fetch_event_dispatch _ _ _ _ _ _ _ sent)
      as (receipt & latest & tee & reached).
    destruct (dispatch_job_id reached) as [-> (raw' & listed' & _ & ->)].
    congruence.
  - intros result returned. rewrite outcome_of_call in returned.
    revert returned. walk; intros returned; try discriminate returned.
    inversion returned; subst; cbn [jobId].
    match goal with
    | converted : map Number ?l = _ |- _ =>
        destruct (last_of_listed _ converted) as [_ ->]
    end.
    congruence.
  - intros hash receipt connected submitted confirmed.
    rewrite run_shape. cbv zeta.
    pose proof (@jobs_read_happens w file key during_call hash receipt raw
                  connected submitted confirmed listed nonempty) as inner.
    destruct (outcome_of (requestContributionProof_try w file key during_call));
      unfold trace_of at 1; cbn [snd]; [exact inner |].
    apply in_or_app. now left.
Qed.

(** Ids listed as 7, 3, 5: job 5 is the one used. *)
Lemma latest_job_is_last_listed_witness :
  List.last (map Number Sample.ids) (Num 0) = Num 5 /\
  (forall result,
     outcome_of (requestContributionProof Sample.happy (Num 9) Sample.key
                                          Sample.idle) = Return result ->
     jobId result = Num 5) /\
  In (during_call, ReadContract Sample.pool "jobs" [ArgNum (Num 5)])
     (trace_of (requestContributionProof Sample.happy (Num 9) Sample.key
                                         Sample.idle)).
Proof.
  destruct (@latest_job_is_last_listed Sample.happy (Num 9) Sample.key Sample.idle
              Sample.ids) as (value & _ & _ & returned & looked_up);
    [reflexivity | discriminate |].
  split; [rewrite value; reflexivity |].
  split; [exact returned |].
  apply (looked_up "0xHASH" Sample.receipt); reflexivity.
Defined.

(** ** Failures *)

(** C3: when the job list read for the file is empty the call throws and sends
    no HTTP request; having got as far as reading the list, what it throws is
    the error "No jobs found for file", which is also what the error cell
    holds afterwards. *)
Theorem no_jobs_found_and_no_request
    (w : World) (file : number) (key : string) (s : HookState) :
  read_fileJobIds w file = Return [] ->
  let r := requestContributionProof w file key s in
  (exists t, outcome_of r = Throw t) /\
  (forall st ev, In (st, ev) (trace_of r) -> is_http_call ev = false) /\
  (forall hash receipt,
     truthy (address w) = true ->
     writeContractAsync w (teePoolAddress w) "requestContributionProof" file
       = Return hash ->
     waitForTransactionReceipt w hash 1 = Return receipt ->
     outcome_of r = Throw (ErrorObj "No jobs found for file") /\
     error (final_state r) = Some "No jobs found for file" /\
     In (during_call, ReadContract (teePoolAddress w) "fileJobIds" [ArgNum file])
        (trace_of r)) /\
  includes (toLowerCase "No jobs found for file") "no jobs found" = true.
Proof.
  intros listed. cbv zeta.
  split; [| split; [| split; [| reflexivity]]].
  - rewrite outcome_of_call. unfold_hook.
    destruct (truthy (address w)); unfold_hook; [| now eexists].
    destruct (writeContractAsync _ _ _ _); unfold_hook; [| now eexists].
    destruct (waitForTransactionReceipt _ _ _); unfold_hook; [| now eexists].
    rewrite listed. unfold_hook. cbn [map]. now eexists.
  - intros st ev here.
    destruct (event_in_try_block _ _ _ _ _ _ here) as [inner | [t ->]];
      [| reflexivity].
    revert inner. unfold_hook.
    destruct (truthy (address w)); unfold_hook; [| intros []].
    destruct (writeContractAsync _ _ _ _); unfold_hook;
      [| intros inner; pick inner; now inversion inner].
    destruct (waitForTransactionReceipt _ _ _); unfold_hook;
      [| intros inner; pick inner; now inversion inner].
    rewrite listed. unfold_hook. cbn [map].
    intros inner; pick inner; now inversion inner.
  - intros hash receipt connected submitted confirmed.
    rewrite run_shape. cbv zeta. unfold_hook.
    rewrite connected, submitted, confirmed, listed. unfold_hook. cbn [map].
    unfold outcome_of, final_state, trace_of. cbn [fst snd error error_text].
    repeat split. cbn [In app]. auto 6.
Qed.

Lemma no_jobs_found_witness :
  outcome_of (requestContributionProof Sample.no_jobs (Num 9) Sample.key Sample.idle)
  = Throw (ErrorObj "No jobs found for file").
Proof.
  destruct (@no_jobs_found_and_no_request Sample.no_jobs (Num 9) Sample.key
              Sample.idle) as (_ & _ & reached & _); [reflexivity |].
  apply (reached "0xHASH" Sample.receipt); reflexivity.
Defined.

(** C5: when the executor answers the request with a status outside 200-299
    the call throws; if the body of the answer is the JSON document [data],
    what is thrown is an error whose message is "TEE request failed: "
    followed by [JSON.stringify(data)], and the error cell holds that
    message. *)
Theorem non_2xx_fails_with_serialized_body
    (w : World) (file : number) (key : string) (s st : HookState)
    (target : string) (init : RequestInit) (response : Response) :
  In (st, Fetch target init) (trace_of (requestContributionProof w file key s)) ->
  fetch w target init = Return response ->
  ~ (200 <= status response <= 299) ->
  let r := requestContributionProof w file key s in
  (exists t, outcome_of r = Throw t) /\
  forall data, json response = Return data ->
    let message := "TEE request failed: " ++ JSON_stringify data in
    outcome_of r = Throw (ErrorObj message) /\
    error (final_state r) = Some message /\
    includes message (JSON_stringify data) = true.
Proof.
  intros sent answered refused. cbv zeta.
  apply fetch_event_in_try_block in sent.
  destruct (fetch_event_dispatch _ _ _ _ _ _ _ sent)
    as (receipt & latest & tee & reached).
  pose proof (dispatch_outcome during_call reached) as ends.
  rewrite answered in ends.
  assert (not_ok : ok response = false).
  { destruct (ok response) eqn:is_ok; [| reflexivity].
    apply ok_iff_2xx in is_ok. contradiction. }
  rewrite not_ok in ends.
  rewrite run_shape. cbv zeta. rewrite ends.
  destruct (json response) as [data|t].
  - split; [now eexists |]. intros data' same. inversion same; subst data'.
    unfold outcome_of, final_state. cbn [fst snd error error_text].
    repeat split. apply includes_suffix.
  - split; [now eexists | discriminate].
Qed.

(** A 500 answer whose body is the object with member [error] set to
    "bad request". *)
Lemma non_2xx_fails_witness :
  JSON_stringify Sample.body_bad_request
  = "{" ++ quote "error" ++ ":" ++ quote "bad request" ++ "}" /\
  outcome_of (requestContributionProof Sample.rejected (Num 9) Sample.key Sample.idle)
  = Throw (ErrorObj ("TEE request failed: " ++ JSON_stringify Sample.body_bad_request))
  /\ includes ("TEE request failed: " ++ JSON_stringify Sample.body_bad_request)
              (JSON_stringify Sample.body_bad_request) = true.
Proof.
  split; [reflexivity |].
  destruct (@non_2xx_fails_with_serialized_body Sample.rejected (Num 9) Sample.key
              Sample.idle Sample.during_fetch Sample.target
              (Sample.init_for Sample.rejected (Some "0xTEEKEY"))
              Sample.reply_500) as [_ embedded].
  - vm_compute. find_event.
  - reflexivity.
  - cbn [status Sample.reply_500]. lia.
  - destruct (embedded Sample.body_bad_request eq_refl) as (thrown & _ & inside).
    split; [exact thrown | exact inside].
Defined.

(** C6: when the executor answers with a status in 200-299 and a JSON body
    [data], the call returns the file id, the chosen job id, [data] itself as
    [proofData], and as [txHash] the transaction hash of the receipt of the
    submitted transaction. *)
Theorem success_returns_body_and_hash
    (w : World) (file : number) (key : string) (s st : HookState)
    (target : string) (init : RequestInit) (response : Response) (data : Json) :
  In (st, Fetch target init) (trace_of (requestContributionProof w file key s)) ->
  fetch w target init = Return response ->
  200 <= status response <= 299 ->
  json response = Return data ->
  exists hash receipt,
    writeContractAsync w (teePoolAddress w) "requestContributionProof" file
      = Return hash /\
    waitForTransactionReceipt w hash 1 = Return receipt /\
    requestContributionProof w file key s =
      (Return {| fileId := file;
                 jobId := job_id (body init);
                 proofData := data;
                 txHash := transactionHash receipt |},
       {| isProcessing := false; error := None |},
       trace_of (requestContributionProof_try w file key during_call)).
Proof.
  intros sent answered accepted parsed.
  apply fetch_event_in_try_block in sent.
  destruct (fetch_event_dispatch _ _ _ _ _ _ _ sent)
    as (receipt & latest & tee & reached).
  pose proof (dispatch_outcome during_call reached) as ends.
  destruct (dispatch_job_id reached) as [chosen _].
  apply ok_iff_2xx in accepted.
  rewrite answered, parsed, accepted in ends.
  destruct reached as [hash raw first rest job params dlpKey
                         _ submitted confirmed _ _ _ _ _ _ _ _ _ _].
  exists hash, receipt. split; [exact submitted |]. split; [exact confirmed |].
  rewrite run_shape. cbv zeta. rewrite ends, chosen. reflexivity.
Qed.

(** A 200 answer whose body is the object with member [ok] set to true. *)
Lemma success_returns_witness :
  outcome_of (requestContributionProof Sample.happy (Num 9) Sample.key Sample.idle)
  = Return {| fileId := Num 9; jobId := Num 5;
              proofData := JObj [("ok", JBool true)];
              txHash := "0xHASH" |}.
Proof.
  destruct (@success_returns_body_and_hash Sample.happy (Num 9) Sample.key
              Sample.idle Sample.during_fetch Sample.target
              (Sample.init_for Sample.happy (Some "0xTEEKEY"))
              Sample.reply_200 Sample.body_ok)
    as (hash & receipt & submitted & confirmed & returned).
  - vm_compute. find_event.
  - reflexivity.
  - cbn [status Sample.reply_200]. lia.
  - reflexivity.
  - rewrite returned. inversion submitted. inversion confirmed. reflexivity.
Defined.

(** ** Job and executor lookup *)

(** Whatever goes wrong inside [getTeeDetails], its own [catch] replaces the
    value thrown by one fixed error. *)
Lemma getTeeDetails_throws_one_error (w : World) (n : number) (s : HookState)
    (t : Thrown) :
  outcome_of (getTeeDetails w n s) = Throw t ->
  t = ErrorObj "Failed to get TEE details for job".
Proof.
  unfold getTeeDetails. unfold_hook.
  destruct (read_jobs w n) as [job|t1]; unfold_hook.
  - destruct (job_unusable job); unfold_hook.
    + intros thrown. now inversion thrown.
    + destruct (read_tees w (job_teeAddress job)) as [[tee|]|t2]; unfold_hook;
        intros thrown; now inversion thrown.
  - intros thrown. now inversion thrown.
Qed.

(** C8, on the code: a job record that is missing, a job record without an
    executor address, a missing executor record and a rejected contract read
    all reach the caller as the same error, "Failed to get TEE details for
    job"; the specific messages only reach the console. *)
Theorem lookup_failures_share_one_message :
  let thrown_in w :=
    outcome_of (requestContributionProof w (Num 9) Sample.key Sample.idle) in
  let logged_in w t :=
    In (during_call, ConsoleError "Error getting TEE details:" t)
       (trace_of (requestContributionProof w (Num 9) Sample.key Sample.idle)) in
  let generic := ErrorObj "Failed to get TEE details for job" in
  thrown_in Sample.missing_job = Throw generic /\
  thrown_in Sample.job_without_tee = Throw generic /\
  thrown_in Sample.missing_tee = Throw generic /\
  thrown_in Sample.read_failure = Throw generic /\
  logged_in Sample.missing_job (ErrorObj "Job not found or missing TEE address") /\
  logged_in Sample.missing_tee (ErrorObj "TEE information not found") /\
  error (final_state (requestContributionProof Sample.missing_tee (Num 9)
                                               Sample.key Sample.idle))
  = Some "Failed to get TEE details for job".
Proof.
  cbv zeta. repeat split; try reflexivity; vm_compute; find_event.
Qed.

(** ** Conversions on sample values *)

Example Number_small : Number 42 = Num 42.
Proof. apply Number_exact. reflexivity. Qed.

Example Number_rounds_to_even : Number (2 ^ 53 + 1) = Num (2 ^ 53).
Proof. vm_compute. reflexivity. Qed.

Example Number_rounds_up : Number (2 ^ 53 + 3) = Num (2 ^ 53 + 4).
Proof. vm_compute. reflexivity. Qed.

Example Number_of_uint256_max : Number (2 ^ 256 - 1) = Num (2 ^ 256).
Proof. vm_compute. reflexivity. Qed.

Example nonce_of_clock : decimal Sample.clock = "1700000000000".
Proof. reflexivity. Qed.

Example stringify_escapes :
  JSON_stringify (JArr [JStr (dquote ++ "a"); JNull; JNum "1.5"])
  = "[" ++ dquote ++ backslash ++ dquote ++ "a" ++ dquote ++ ",null,1.5]".
Proof. reflexivity. Qed.

(** * Further properties of the hook *)

(** ** Traces *)

Lemma count_app (p : Event -> bool) (early late : Trace) :
  count p (early ++ late)%list = (count p early + count p late)%nat.
Proof.
  unfold count, events. now rewrite map_app, filter_app, length_app.
Qed.

(** The trace of a call: that of its [try] block, and after a throw the
    console line of the [catch] block. *)
Lemma trace_of_call (w : World) (file : number) (key : string) (s : HookState) :
  trace_of (requestContributionProof w file key s) =
  let inner := requestContributionProof_try w file key during_call in
  match outcome_of inner with
  | Return _ => trace_of inner
  | Throw t =>
      (trace_of inner
         ++ [(during_call, ConsoleError "Error in proof process:" t)])%list
  end.
Proof.
  rewrite run_shape. cbv zeta.
  destruct (outcome_of (requestContributionProof_try w file key during_call));
    reflexivity.
Qed.

Lemma final_state_of_call (w : World) (file : number) (key : string)
    (s : HookState) :
  final_state (requestContributionProof w file key s) =
  {| isProcessing := false;
     error := match outcome_of (requestContributionProof w file key s) with
              | Return _ => None
              | Throw t => Some (error_text t)
              end |}.
Proof.
  rewrite run_shape. cbv zeta.
  destruct (outcome_of (requestContributionProof_try w file key during_call));
    reflexivity.
Qed.

(** Once every step before the HTTP call has succeeded, the effects of the
    [try] block are the nine of [full_trace], whatever the executor answers. *)
Lemma dispatch_trace (w : World) (file : number) (key : string) (s : HookState)
    (target : string) (init : RequestInit) (receipt : Receipt)
    (latest : number) (tee : TeeData) :
  Dispatch w file key target init receipt latest tee ->
  exists hash job,
    writeContractAsync w (teePoolAddress w) "requestContributionProof" file
      = Return hash /\
    waitForTransactionReceipt w hash 1 = Return receipt /\
    read_jobs w latest = Return job /\
    read_tees w (job_teeAddress job) = Return (Some tee) /\
    trace_of (requestContributionProof_try w file key s)
      = full_trace w file hash latest job target init s.
Proof.
  intros [hash raw first rest job params dlpKey
            connected submitted confirmed listed converted chosen
            found usable resolved generated pooled -> ->].
  exists hash, job. repeat (split; [assumption |]).
  unfold_hook.
  rewrite connected, submitted, confirmed, listed, converted, <- chosen, found,
    usable, resolved, generated, pooled.
  unfold_hook.
  destruct (fetch w _ _) as [response|t]; unfold_hook; [| reflexivity].
  destruct (ok response), (json response); reflexivity.
Qed.

(** A call returns only by way of the HTTP call. *)
Lemma returned_dispatch (w : World) (file : number) (key : string)
    (s : HookState) (result : ProofResult) :
  outcome_of (requestContributionProof_try w file key s) = Return result ->
  exists target init receipt latest tee,
    Dispatch w file key target init receipt latest tee.
Proof.
  walk; intros returned; try discriminate returned.
  do 5 eexists. econstructor; eauto.
Qed.

(** X1: what a call does, returns or throws, and the state it leaves do not
    depend on the state cells it starts from: nothing of an earlier call is
    carried over. *)
Theorem run_ignores_initial_state
    (w : World) (file : number) (key : string) (s1 s2 : HookState) :
  requestContributionProof w file key s1 = requestContributionProof w file key s2.
Proof. now rewrite !run_shape. Qed.

(** X2: a call submits at most one transaction and sends at most one HTTP
    request; a failure after the transaction is followed by no second
    write. *)
Theorem at_most_one_write_and_one_request
    (w : World) (file : number) (key : string) (s : HookState) :
  let r := requestContributionProof w file key s in
  (count is_contract_write (trace_of r) <= 1)%nat /\
  (count is_http_call (trace_of r) <= 1)%nat /\
  (forall st target init,
     In (st, Fetch target init) (trace_of r) ->
     count is_contract_write (trace_of r) = 1%nat).
Proof.
  cbv zeta.
  assert (inner :
    let tr := trace_of (requestContributionProof_try w file key during_call) in
    (count is_contract_write tr <= 1)%nat /\ (count is_http_call tr <= 1)%nat /\
    (forall st target init, In (st, Fetch target init) tr ->
       count is_contract_write tr = 1%nat)).
  { cbv zeta. walk; (split; [| split]);
      try (cbv [count events map snd filter is_contract_write is_http_call
                List.length]; lia);
      intros st target init here; pick here; reflexivity. }
  cbv zeta in inner. destruct inner as (writes & requests & sent).
  rewrite trace_of_call. cbv zeta.
  destruct (outcome_of (requestContributionProof_try w file key during_call));
    [repeat split; assumption |].
  rewrite !count_app.
  change (count is_contract_write [(during_call, ConsoleError _ t)]) with 0%nat.
  change (count is_http_call [(during_call, ConsoleError _ t)]) with 0%nat.
  rewrite !Nat.add_0_r. repeat split; try assumption.
  intros st target init [early | [last | []]]%in_app_or;
    [eauto | discriminate last].
Qed.

Lemma at_most_one_write_witness :
  count is_contract_write
    (trace_of (requestContributionProof Sample.rejected (Num 9) Sample.key
                                        Sample.idle)) = 1%nat.
Proof.
  destruct (at_most_one_write_and_one_request Sample.rejected (Num 9) Sample.key
              Sample.idle) as (_ & _ & sent).
  apply (sent Sample.during_fetch Sample.target
              (Sample.init_for Sample.rejected (Some "0xTEEKEY"))).
  vm_compute. find_event.
Defined.

(** X3: a call that throws writes the console line of its [catch] block
    exactly once, and that line carries the value thrown; a call that returns
    does not write it. *)
Theorem failure_is_logged_once
    (w : World) (file : number) (key : string) (s : HookState) :
  let r := requestContributionProof w file key s in
  count is_catch_line (trace_of r)
  = match outcome_of r with Return _ => 0%nat | Throw _ => 1%nat end /\
  forall st label t,
    In (st, ConsoleError label t) (trace_of r) ->
    is_catch_line (ConsoleError label t) = true ->
    outcome_of r = Throw t.
Proof.
  cbv zeta.
  assert (inner : forall st ev,
            In (st, ev) (trace_of (requestContributionProof_try w file key during_call)) ->
            is_catch_line ev = false).
  { walk; intros st ev here; pick here; now inversion here. }
  assert (none : count is_catch_line
                   (trace_of (requestContributionProof_try w file key during_call))
                 = 0%nat).
  { unfold count, events.
    induction (trace_of (requestContributionProof_try w file key during_call))
      as [|[st ev] tr IH]; [reflexivity |].
    cbn [map snd filter].
    rewrite (inner st ev (or_introl eq_refl)). apply IH.
    intros st' ev' later. apply (inner st' ev'). now right. }
  rewrite trace_of_call, outcome_of_call. cbv zeta.
  destruct (outcome_of (requestContributionProof_try w file key during_call))
    as [a|t].
  - split; [exact none |].
    intros st label t here line. now rewrite (inner _ _ here) in line.
  - split; [rewrite count_app, none; reflexivity |].
    intros st label t' [early | [last | []]]%in_app_or line.
    + now rewrite (inner _ _ early) in line.
    + now inversion last.
Qed.

Lemma failure_is_logged_once_witness :
  outcome_of (requestContributionProof Sample.no_jobs (Num 9) Sample.key Sample.idle)
  = Throw (ErrorObj "No jobs found for file").
Proof.
  destruct (failure_is_logged_once Sample.no_jobs (Num 9) Sample.key Sample.idle)
    as [_ carried].
  apply (carried during_call "Error in proof process:").
  - vm_compute. find_event.
  - reflexivity.
Defined.

(** ** The transaction comes first *)

(** X4: no contract read and no HTTP request is made unless the wallet is
    connected, the transaction was submitted and its receipt obtained; and the
    receipt is waited for on the hash the submission returned, with one
    confirmation. *)
Theorem nothing_read_before_confirmation
    (w : World) (file : number) (key : string) (s : HookState) :
  let r := requestContributionProof w file key s in
  (forall st ev,
     In (st, ev) (trace_of r) -> follows_transaction ev = true ->
     truthy (address w) = true /\
     exists hash receipt,
       writeContractAsync w (teePoolAddress w) "requestContributionProof" file
         = Return hash /\
       waitForTransactionReceipt w hash 1 = Return receipt) /\
  (forall st hash confirmations,
     In (st, WaitForReceipt hash confirmations) (trace_of r) ->
     confirmations = 1 /\
     writeContractAsync w (teePoolAddress w) "requestContributionProof" file
       = Return hash).
Proof.
  cbv zeta. split.
  - intros st ev here after.
    destruct (event_in_try_block _ _ _ _ _ _ here) as [inner | [t ->]];
      [| discriminate after].
    revert inner. walk; intros inner; pick inner.
    all: inversion inner; subst ev; try discriminate after; eauto.
  - intros st hash confirmations here.
    destruct (event_in_try_block _ _ _ _ _ _ here) as [inner | [t absurd]];
      [| discriminate absurd].
    revert inner. walk; intros inner; pick inner.
    all: inversion inner; subst; auto.
Qed.

Lemma nothing_read_before_confirmation_witness :
  truthy (address Sample.missing_tee) = true /\
  exists hash receipt,
    writeContractAsync Sample.missing_tee (teePoolAddress Sample.missing_tee)
                       "requestContributionProof" (Num 9) = Return hash /\
    waitForTransactionReceipt Sample.missing_tee hash 1 = Return receipt.
Proof.
  destruct (nothing_read_before_confirmation Sample.missing_tee (Num 9) Sample.key
              Sample.idle) as [needed _].
  apply (needed during_call
                (ReadContract Sample.pool "tees" [ArgStr Sample.tee_address])).
  - vm_compute. find_event.
  - reflexivity.
Defined.

(** X5: a rejection by the wallet write or by the receipt wait reaches the
    caller as the very value rejected with, not wrapped; the error cell holds
    its text, and nothing is read or requested afterwards. *)
Theorem submission_failures_rethrown_unchanged
    (w : World) (file : number) (key : string) (s : HookState) (t : Thrown) :
  truthy (address w) = true ->
  let r := requestContributionProof w file key s in
  let submit := WriteContract (teePoolAddress w) "requestContributionProof" file in
  let caught := ConsoleError "Error in proof process:" t in
  let failed := {| isProcessing := false; error := Some (error_text t) |} in
  (writeContractAsync w (teePoolAddress w) "requestContributionProof" file
     = Throw t ->
   r = (Throw t, failed, [(during_call, submit); (during_call, caught)])) /\
  (forall hash,
     writeContractAsync w (teePoolAddress w) "requestContributionProof" file
       = Return hash ->
     waitForTransactionReceipt w hash 1 = Throw t ->
     r = (Throw t, failed,
          [(during_call, submit); (during_call, WaitForReceipt hash 1);
           (during_call, caught)])).
Proof.
  intros connected. cbv zeta. split.
  - intros refused. rewrite run_shape. unfold_hook.
    rewrite connected. unfold_hook. rewrite refused. reflexivity.
  - intros hash submitted unconfirmed. rewrite run_shape. unfold_hook.
    rewrite connected. unfold_hook. rewrite submitted. unfold_hook.
    rewrite unconfirmed. reflexivity.
Qed.

Lemma submission_failures_witness :
  outcome_of (requestContributionProof Sample.wallet_refuses (Num 9) Sample.key
                                       Sample.idle)
  = Throw (NonError (JStr "user rejected")) /\
  outcome_of (requestContributionProof Edge.never_confirmed (Num 9) Sample.key
                                       Sample.idle)
  = Throw Edge.timeout.
Proof.
  split.
  - destruct (@submission_failures_rethrown_unchanged Sample.wallet_refuses (Num 9)
                Sample.key Sample.idle (NonError (JStr "user rejected")) eq_refl)
      as [refused _].
    now rewrite (refused eq_refl).
  - destruct (@submission_failures_rethrown_unchanged Edge.never_confirmed (Num 9)
                Sample.key Sample.idle Edge.timeout eq_refl)
      as [_ unconfirmed].
    now rewrite (unconfirmed "0xHASH" eq_refl eq_refl).
Defined.

(** ** Failed reads *)

Lemma Throw_inj {A} (t1 t2 : Thrown) : @Throw A t1 = Throw t2 -> t1 = t2.
Proof. intros same. now inversion same. Qed.

(** X6: when the read of the job ids is rejected, whatever the value rejected
    with, the caller gets the error "Failed to get job IDs for file"; the
    original value only reaches the console, the error cell holds the fixed
    message, and no job or executor is looked up and no request sent. *)
Theorem job_ids_read_failure_is_wrapped
    (w : World) (file : number) (key : string) (s st : HookState)
    (contract : string) (args : list Arg) (t : Thrown) :
  In (st, ReadContract contract "fileJobIds" args)
     (trace_of (requestContributionProof w file key s)) ->
  read_fileJobIds w file = Throw t ->
  let r := requestContributionProof w file key s in
  outcome_of r = Throw (ErrorObj "Failed to get job IDs for file") /\
  error (final_state r) = Some "Failed to get job IDs for file" /\
  In (during_call, ConsoleError "Error getting file job IDs:" t) (trace_of r) /\
  count follows_transaction (trace_of r) = 1%nat.
Proof.
  intros here unreadable. cbv zeta.
  destruct (event_in_try_block _ _ _ _ _ _ here) as [inner | [t' absurd]];
    [| discriminate absurd].
  rewrite final_state_of_call, trace_of_call, outcome_of_call. cbv zeta.
  revert inner. unfold_hook.
  destruct (truthy (address w)); unfold_hook; [| intros []].
  destruct (writeContractAsync _ _ _ _) as [hash|]; unfold_hook;
    [| intros inner; pick inner].
  destruct (waitForTransactionReceipt _ _ _); unfold_hook;
    [| intros inner; pick inner].
  rewrite unreadable. unfold_hook. intros _.
  repeat split. cbn [In app]. auto 8.
Qed.

Lemma job_ids_read_failure_witness :
  outcome_of (requestContributionProof Edge.ids_unreadable (Num 9) Sample.key
                                       Sample.idle)
  = Throw (ErrorObj "Failed to get job IDs for file").
Proof.
  apply (@job_ids_read_failure_is_wrapped Edge.ids_unreadable (Num 9) Sample.key
           Sample.idle during_call Sample.pool [ArgNum (Num 9)] (NonError JNull)).
  - vm_compute. find_event.
  - reflexivity.
Defined.

(** X7: when the read of the pool's public key is rejected, the caller gets
    the very value rejected with: unlike the reads of job ids, job and
    executor, this one is not wrapped.  The read goes to the data liquidity
    pool contract, without arguments, and no request is sent after it
    fails. *)
Theorem pool_key_failure_not_wrapped
    (w : World) (file : number) (key : string) (s st : HookState)
    (contract : string) (args : list Arg) :
  In (st, ReadContract contract "publicKey" args)
     (trace_of (requestContributionProof w file key s)) ->
  let r := requestContributionProof w file key s in
  contract = dataLiquidityPoolAddress w /\ args = [] /\
  forall t, read_publicKey w = Throw t ->
    outcome_of r = Throw t /\
    error (final_state r) = Some (error_text t) /\
    count is_http_call (trace_of r) = 0%nat.
Proof.
  intros here. cbv zeta.
  destruct (event_in_try_block _ _ _ _ _ _ here) as [inner | [t' absurd]];
    [| discriminate absurd].
  rewrite final_state_of_call, trace_of_call, outcome_of_call. cbv zeta.
  revert inner. walk; intros inner; pick inner.
  all: inversion inner; subst; split; [reflexivity |]; split; [reflexivity |].
  all: intros thrown unreadable; try discriminate unreadable.
  apply Throw_inj in unreadable. subst thrown. repeat split.
Qed.

Lemma pool_key_failure_witness :
  outcome_of (requestContributionProof Edge.pool_key_unreadable (Num 9) Sample.key
                                       Sample.idle)
  = Throw Edge.timeout.
Proof.
  destruct (@pool_key_failure_not_wrapped Edge.pool_key_unreadable (Num 9)
              Sample.key Sample.idle during_call Sample.dlp [])
    as (_ & _ & unwrapped).
  - vm_compute. find_event.
  - apply (unwrapped Edge.timeout eq_refl).
Defined.

(** ** The request *)

Lemma add_key_keeps_the_rest (teeKey : maybe_string) (key : string)
    (b : ProofRequestBody) :
  let b' := add_key teeKey key b in
  job_id b' = job_id b /\ file_id b' = file_id b /\ nonce b' = nonce b /\
  proof_url b' = proof_url b /\ encryption_seed b' = encryption_seed b /\
  env_vars b' = env_vars b /\ validate_permissions b' = validate_permissions b.
Proof. cbv zeta. unfold add_key. destruct (truthy teeKey); repeat split. Qed.

(** X8: every request is a JSON POST to the executor's url followed by
    "/RunProof" (the text "undefined" stands for a url the executor record
    lacks).  Its body names the file, carries the clock reading in decimal as
    nonce and the fixed template url, repeats the caller's key in
    [encryption_seed] whichever key field is used, and has exactly one
    permission entry: the pool's address with the pool's public key as read
    and the generated iv and ephemeral key. *)
Theorem request_shape
    (w : World) (file : number) (key : string) (s st : HookState)
    (target : string) (init : RequestInit) :
  In (st, Fetch target init) (trace_of (requestContributionProof w file key s)) ->
  method init = "POST" /\
  headers init = [("Content-Type", "application/json")] /\
  file_id (body init) = file /\
  nonce (body init) = decimal (Date_now w) /\
  proof_url (body init) = proof_template_url /\
  encryption_seed (body init) = key /\
  env_vars (body init) = {| USER_EMAIL := "user@example.com" |} /\
  exists job tee params dlpKey,
    read_jobs w (job_id (body init)) = Return job /\
    read_tees w (job_teeAddress job) = Return (Some tee) /\
    getEncryptionParameters w = Return params /\
    read_publicKey w = Return dlpKey /\
    target = template (url tee) ++ "/RunProof" /\
    validate_permissions (body init)
      = [ {| perm_address := dataLiquidityPoolAddress w;
             public_key := dlpKey;
             iv := ivHex params;
             ephemeral_key := ephemeralKeyHex params |} ].
Proof.
  intros sent. apply fetch_event_in_try_block in sent.
  destruct (fetch_event_dispatch _ _ _ _ _ _ _ sent)
    as (receipt & latest & tee & reached).
  destruct reached as [hash raw first rest job params dlpKey
                         _ _ _ _ _ _ found _ resolved generated pooled -> ->].
  cbn [method headers body].
  destruct (add_key_keeps_the_rest (publicKey tee) key
              (initial_body w latest file (decimal (Date_now w)) key dlpKey params))
    as (-> & -> & -> & -> & -> & -> & ->).
  cbn [initial_body job_id file_id nonce proof_url encryption_seed env_vars
       validate_permissions].
  repeat (split; [reflexivity |]).
  exists job, tee, params, dlpKey. repeat (split; [assumption |]).
  split; reflexivity.
Qed.

(** An executor record without url or key: the request goes to
    "undefined/RunProof" and still repeats the key as seed. *)
Lemma request_shape_witness :
  encryption_seed (body (Sample.init_for Edge.tee_without_url None)) = Sample.key /\
  method (Sample.init_for Edge.tee_without_url None) = "POST".
Proof.
  destruct (@request_shape Edge.tee_without_url (Num 9) Sample.key Sample.idle
              during_call "undefined/RunProof"
              (Sample.init_for Edge.tee_without_url None))
    as (posted & _ & _ & _ & _ & seeded & _).
  - vm_compute. find_event.
  - split; [exact seeded | exact posted].
Defined.

(** X9: once the request has been sent, a rejection of [fetch] itself, or of
    the reading of the answer's body as JSON, reaches the caller as the very
    value rejected with, whatever the status of the answer; an answer that is
    not JSON is therefore not reported as "TEE request failed". *)
Theorem transport_and_parse_failures_rethrown
    (w : World) (file : number) (key : string) (s st : HookState)
    (target : string) (init : RequestInit) (t : Thrown) :
  In (st, Fetch target init) (trace_of (requestContributionProof w file key s)) ->
  fetch w target init = Throw t \/
  (exists response, fetch w target init = Return response /\
                    json response = Throw t) ->
  let r := requestContributionProof w file key s in
  outcome_of r = Throw t /\ error (final_state r) = Some (error_text t).
Proof.
  intros sent failed. cbv zeta.
  apply fetch_event_in_try_block in sent.
  destruct (fetch_event_dispatch _ _ _ _ _ _ _ sent)
    as (receipt & latest & tee & reached).
  pose proof (dispatch_outcome during_call reached) as ends.
  rewrite final_state_of_call, outcome_of_call.
  destruct failed as [unsent | (response & answered & unparsed)].
  - rewrite unsent in ends. rewrite ends. split; reflexivity.
  - rewrite answered, unparsed in ends. rewrite ends. split; reflexivity.
Qed.

Lemma transport_and_parse_failures_witness :
  outcome_of (requestContributionProof Edge.unreachable (Num 9) Sample.key Sample.idle)
  = Throw Edge.timeout /\
  outcome_of (requestContributionProof Edge.bad_gateway (Num 9) Sample.key Sample.idle)
  = Throw Edge.html_body.
Proof.
  split.
  - apply (@transport_and_parse_failures_rethrown Edge.unreachable (Num 9)
             Sample.key Sample.idle during_call Sample.target
             (Sample.init_for Edge.unreachable (Some "0xTEEKEY")) Edge.timeout).
    + vm_compute. find_event.
    + left. reflexivity.
  - apply (@transport_and_parse_failures_rethrown Edge.bad_gateway (Num 9)
             Sample.key Sample.idle during_call Sample.target
             (Sample.init_for Edge.bad_gateway (Some "0xTEEKEY")) Edge.html_body).
    + vm_compute. find_event.
    + right. eexists. split; reflexivity.
Defined.

(** X10: a request is sent exactly when the wallet is connected and every
    step before it succeeds: the write, the receipt, a non-empty job list, a
    usable job, an executor record, the encryption parameters and the pool's
    public key. *)
Theorem request_sent_iff_all_steps_succeed
    (w : World) (file : number) (key : string) (s : HookState)
    (target : string) (init : RequestInit) :
  In (during_call, Fetch target init)
     (trace_of (requestContributionProof w file key s)) <->
  exists receipt latest tee, Dispatch w file key target init receipt latest tee.
Proof.
  split.
  - intros sent. apply fetch_event_in_try_block in sent.
    apply (fetch_event_dispatch _ _ _ _ _ _ _ sent).
  - intros (receipt & latest & tee & reached).
    destruct (dispatch_trace during_call reached)
      as (hash & job & _ & _ & _ & _ & effects).
    rewrite trace_of_call. cbv zeta. rewrite effects.
    destruct (outcome_of (requestContributionProof_try w file key during_call));
      [| apply in_or_app; left]; unfold full_trace; cbn [In]; auto 12.
Qed.

(** X11: a call that returns has performed, in this order and nothing else:
    the write, the receipt wait on its hash, a console line, the reads of the
    job ids, of the last job and of that job's executor, a console line, the
    read of the pool's public key, and the request.  The result names the
    file, the job looked up and the hash of the receipt waited for. *)
Theorem returned_run_has_full_trace
    (w : World) (file : number) (key : string) (s : HookState)
    (result : ProofResult) :
  outcome_of (requestContributionProof w file key s) = Return result ->
  exists hash receipt job target init,
    writeContractAsync w (teePoolAddress w) "requestContributionProof" file
      = Return hash /\
    waitForTransactionReceipt w hash 1 = Return receipt /\
    read_jobs w (jobId result) = Return job /\
    trace_of (requestContributionProof w file key s)
      = full_trace w file hash (jobId result) job target init during_call /\
    fileId result = file /\
    txHash result = transactionHash receipt /\
    job_id (body init) = jobId result /\
    final_state (requestContributionProof w file key s)
      = {| isProcessing := false; error := None |}.
Proof.
  intros returned.
  rewrite final_state_of_call, trace_of_call, returned. cbv zeta.
  rewrite outcome_of_call in returned. rewrite returned.
  destruct (returned_dispatch _ _ _ _ returned)
    as (target & init & receipt & latest & tee & reached).
  pose proof (dispatch_outcome during_call reached) as ends.
  rewrite returned in ends.
  destruct (dispatch_trace during_call reached)
    as (hash & job & submitted & confirmed & found & _ & effects).
  destruct (dispatch_job_id reached) as [chosen _].
  assert (shape : fileId result = file /\ jobId result = latest /\
                  txHash result = transactionHash receipt).
  { destruct (fetch w target init) as [response|]; [| discriminate ends].
    destruct (json response); [| discriminate ends].
    destruct (ok response); [| discriminate ends].
    inversion ends. repeat split. }
  destruct shape as (named & looked_up & hashed).
  exists hash, receipt, job, target, init.
  rewrite looked_up. repeat split; assumption.
Qed.

Lemma returned_run_witness :
  exists hash receipt job target init,
    trace_of (requestContributionProof Sample.happy (Num 9) Sample.key Sample.idle)
    = full_trace Sample.happy (Num 9) hash (Num 5) job target init during_call /\
    txHash {| fileId := Num 9; jobId := Num 5; proofData := Sample.body_ok;
              txHash := "0xHASH" |} = transactionHash receipt.
Proof.
  destruct (@returned_run_has_full_trace Sample.happy (Num 9) Sample.key Sample.idle
              {| fileId := Num 9; jobId := Num 5; proofData := Sample.body_ok;
                 txHash := "0xHASH" |} eq_refl)
    as (hash & receipt & job & target & init & _ & _ & _ & effects & _ & hashed & _).
  exists hash, receipt, job, target, init. split; [exact effects | exact hashed].
Defined.

Lemma request_sent_witness :
  exists receipt latest tee,
    Dispatch Sample.happy (Num 9) Sample.key Sample.target
             (Sample.init_for Sample.happy (Some "0xTEEKEY")) receipt latest tee.
Proof.
  apply (proj1 (request_sent_iff_all_steps_succeed Sample.happy (Num 9) Sample.key
                  Sample.idle Sample.target
                  (Sample.init_for Sample.happy (Some "0xTEEKEY")))).
  vm_compute. find_event.
Defined.

(** ** Looking up the executor *)

Lemma usable_job_has_address (job : option JobData) :
  job_unusable job = false -> truthy (job_teeAddress job) = true.
Proof.
  destruct job as [j|]; cbn [job_unusable job_teeAddress]; [| discriminate].
  now destruct (truthy (teeAddress j)).
Qed.

(** X12: [getTeeDetails] returns exactly when the job read answers a record
    with a non-empty executor address and the executor read answers a record;
    what it returns is that record's url and public key, unchecked, with the
    job's executor address, which is therefore never missing or empty. *)
Theorem getTeeDetails_returns_iff
    (w : World) (n : number) (s : HookState) (details : JobDetails) :
  outcome_of (getTeeDetails w n s) = Return details <->
  exists job tee,
    read_jobs w n = Return job /\
    truthy (job_teeAddress job) = true /\
    read_tees w (job_teeAddress job) = Return (Some tee) /\
    details = {| teeUrl := url tee;
                 teePublicKey := publicKey tee;
                 details_teeAddress := job_teeAddress job |}.
Proof.
  unfold getTeeDetails. unfold_hook. split.
  - destruct (read_jobs w n) as [job|]; unfold_hook; [| discriminate].
    destruct (job_unusable job) eqn:usable; unfold_hook; [discriminate |].
    destruct (read_tees w (job_teeAddress job)) as [[tee|]|] eqn:resolved;
      unfold_hook; try discriminate.
    intros returned. inversion returned.
    exists job, tee. repeat split; auto using usable_job_has_address.
  - intros (job & tee & found & present & resolved & ->).
    rewrite found. unfold_hook.
    assert (usable : job_unusable job = false).
    { destruct job as [j|]; cbn [job_unusable job_teeAddress] in *;
        [now rewrite present | discriminate]. }
    rewrite usable. unfold_hook. rewrite resolved. reflexivity.
Qed.

Lemma getTeeDetails_returns_witness :
  outcome_of (getTeeDetails Sample.happy (Num 5) Sample.idle)
  = Return {| teeUrl := Some "https://tee.example";
              teePublicKey := Some "0xTEEKEY";
              details_teeAddress := Sample.tee_address |}.
Proof.
  apply (proj2 (getTeeDetails_returns_iff Sample.happy (Num 5) Sample.idle _)).
  exists Sample.job, Sample.tee_with_key. repeat split.
Defined.

(** X13: [getTeeDetails] reads the job first and the executor at most once,
    only for a job that has an executor address and under that address; for a
    missing job or one without address its only effects are the job read and
    its console line. *)
Theorem executor_read_needs_usable_job
    (w : World) (n : number) (s : HookState) :
  let tr := trace_of (getTeeDetails w n s) in
  hd_error (events tr) = Some (ReadContract (teePoolAddress w) "jobs" [ArgNum n]) /\
  (forall st contract args,
     In (st, ReadContract contract "tees" args) tr ->
     exists job, read_jobs w n = Return job /\
                 truthy (job_teeAddress job) = true /\
                 args = [ArgStr (job_teeAddress job)]) /\
  (forall job,
     read_jobs w n = Return job -> truthy (job_teeAddress job) = false ->
     events tr
     = [ ReadContract (teePoolAddress w) "jobs" [ArgNum n];
         ConsoleError "Error getting TEE details:"
                      (ErrorObj "Job not found or missing TEE address") ]).
Proof.
  cbv zeta. unfold getTeeDetails. unfold_hook.
  destruct (read_jobs w n) as [job|t] eqn:found; unfold_hook.
  - destruct (job_unusable job) eqn:usable; unfold_hook.
    + split; [reflexivity |]. split.
      * intros st contract args here. pick here.
      * intros job' same _. reflexivity.
    + pose proof (usable_job_has_address _ usable) as present.
      destruct (read_tees w (job_teeAddress job)) as [[tee|]|t]; unfold_hook;
        (split; [reflexivity |]); (split;
          [ intros st contract args here; pick here; inversion here;
            exists job; repeat split; assumption
          | intros job' same absent; inversion same; subst job'; congruence ]).
  - split; [reflexivity |]. split.
    + intros st contract args here. pick here.
    + intros job' absurd. discriminate absurd.
Qed.

Lemma executor_read_witness :
  events (trace_of (getTeeDetails Sample.job_without_tee (Num 5) Sample.idle))
  = [ ReadContract Sample.pool "jobs" [ArgNum (Num 5)];
      ConsoleError "Error getting TEE details:"
                   (ErrorObj "Job not found or missing TEE address") ].
Proof.
  destruct (executor_read_needs_usable_job Sample.job_without_tee (Num 5)
              Sample.idle) as (_ & _ & skipped).
  apply (skipped (Some {| teeAddress := None |})); reflexivity.
Defined.

(** ** Converting job ids *)

(** Rounding to 53 significant bits moves a magnitude by at most one part in
    2^53. *)
Lemma round_magnitude_close (a : Z) :
  0 <= a -> Z.abs (round_magnitude a - a) * 2 ^ 53 <= a.
Proof.
  intros nonneg. unfold round_magnitude.
  destruct (Z.ltb_spec a (2 ^ 53)) as [small|big].
  - rewrite Z.sub_diag. cbn [Z.abs]. lia.
  - assert (positive : 0 < a) by lia.
    destruct (Z.log2_spec a positive) as [low high].
    assert (wide : 53 <= Z.log2 a).
    { apply Z.log2_le_pow2; lia. }
    set (e := Z.log2 a - 52) in *.
    assert (e_pos : 1 <= e) by (unfold e; lia).
    rewrite Z.shiftr_div_pow2, Z.land_ones, !Z.shiftl_mul_pow2 by lia.
    rewrite Z.mul_1_l.
    assert (split_e : 2 ^ e = 2 * 2 ^ (e - 1)).
    { rewrite <- Z.pow_succ_r by lia. f_equal. lia. }
    assert (scale : 2 ^ (e - 1) * 2 ^ 53 = 2 ^ Z.log2 a).
    { rewrite <- Z.pow_add_r by lia. f_equal. unfold e. lia. }
    assert (half_pos : 0 < 2 ^ (e - 1)) by (apply Z.pow_pos_nonneg; lia).
    pose proof (Z.div_mod a (2 ^ e) ltac:(lia)) as parts.
    pose proof (Z.mod_pos_bound a (2 ^ e) ltac:(lia)) as bound.
    set (q := a / 2 ^ e) in *. set (r := a mod 2 ^ e) in *.
    set (h := 2 ^ (e - 1)) in *.
    assert (near : Z.abs ((if (h <? r) || (r =? h) && Z.odd q then q + 1 else q)
                          * 2 ^ e - a) <= h).
    { destruct ((h <? r) || (r =? h) && Z.odd q) eqn:up.
      - assert (h <= r).
        { apply orb_true_iff in up. destruct up as [above | tie].
          - apply Z.ltb_lt in above. lia.
          - apply andb_true_iff in tie. destruct tie as [tie _].
            apply Z.eqb_eq in tie. lia. }
        lia.
      - apply orb_false_iff in up. destruct up as [below _].
        apply Z.ltb_ge in below. lia. }
    nia.
Qed.

Lemma Number_close (b : Z) :
  Z.abs b < 2 ^ 1023 ->
  exists v, Number b = Num v /\ Z.abs (v - b) * 2 ^ 53 <= Z.abs b.
Proof.
  intros bounded. unfold Number.
  pose proof (@round_magnitude_close (Z.abs b) (Z.abs_nonneg b)) as near.
  set (m := round_magnitude (Z.abs b)) in *.
  assert (double : 2 ^ 1024 = 2 * 2 ^ 1023) by reflexivity.
  assert (unit : 1 <= 2 ^ 53) by (apply Z.pow_le_mono_r with (b := 0); lia).
  assert (finite : m < 2 ^ 1024) by nia.
  destruct (Z.leb_spec (2 ^ 1024) m) as [huge|_]; [lia |].
  exists (Z.sgn b * m). split; [reflexivity |].
  destruct (Z.sgn_spec b) as [[pos ->] | [[zero ->] | [neg ->]]]; lia.
Qed.

(** X14: when every job id the contract lists is below 2^53 in magnitude,
    [getFileJobIds] returns the very same integers, in the same order, after
    a single contract read. *)
Theorem job_ids_exact_below_2_53
    (w : World) (file : number) (s : HookState) (raw : list Z) :
  read_fileJobIds w file = Return raw ->
  (forall z, In z raw -> Z.abs z < 2 ^ 53) ->
  getFileJobIds w file s =
    (Return (map Num raw), s,
     [(s, ReadContract (teePoolAddress w) "fileJobIds" [ArgNum file])]).
Proof.
  intros listed safe. unfold getFileJobIds. unfold_hook. rewrite listed.
  unfold_hook. do 3 f_equal.
  apply map_ext_in. intros z member. apply Number_exact. auto.
Qed.

Lemma job_ids_exact_witness :
  outcome_of (getFileJobIds Sample.happy (Num 9) Sample.idle)
  = Return [Num 7; Num 3; Num 5].
Proof.
  rewrite (@job_ids_exact_below_2_53 Sample.happy (Num 9) Sample.idle Sample.ids
             eq_refl).
  - reflexivity.
  - intros z [<- | [<- | [<- | []]]]; reflexivity.
Defined.

(** X15: job ids of any size below 2^1023 in magnitude (every uint256 is)
    come back from [getFileJobIds] as finite numbers, one per id and in the
    same order, each within one part in 2^53 of the id listed; above 2^53 the
    number may differ from the id. *)
Theorem job_ids_conversion_is_close
    (w : World) (file : number) (s : HookState) (raw : list Z) :
  read_fileJobIds w file = Return raw ->
  (forall z, In z raw -> Z.abs z < 2 ^ 1023) ->
  exists ids,
    outcome_of (getFileJobIds w file s) = Return ids /\
    List.length ids = List.length raw /\
    forall i z, nth_error raw i = Some z ->
      exists v, nth_error ids i = Some (Num v) /\
                Z.abs (v - z) * 2 ^ 53 <= Z.abs z.
Proof.
  intros listed bounded. exists (map Number raw).
  unfold getFileJobIds. unfold_hook. rewrite listed. unfold_hook.
  split; [reflexivity |]. split; [apply length_map |].
  intros i z at_i.
  destruct (@Number_close z) as (v & converted & near).
  { apply bounded. eapply nth_error_In. exact at_i. }
  exists v. split; [| exact near].
  rewrite nth_error_map, at_i. cbn [option_map]. now rewrite converted.
Qed.

(** Ids 2^53 + 1 and 2^53 + 3 come back as 2^53 and 2^53 + 4. *)
Lemma job_ids_conversion_witness :
  outcome_of (getFileJobIds Edge.large (Num 9) Sample.idle)
  = Return [Num (2 ^ 53); Num (2 ^ 53 + 4)] /\
  exists ids,
    outcome_of (getFileJobIds Edge.large (Num 9) Sample.idle) = Return ids /\
    List.length ids = 2%nat.
Proof.
  split; [vm_compute; reflexivity |].
  destruct (@job_ids_conversion_is_close Edge.large (Num 9) Sample.idle
              Edge.large_ids eq_refl) as (ids & returned & counted & _).
  - intros z [<- | [<- | []]]; reflexivity.
  - exists ids. split; [exact returned | exact counted].
Defined.

(** ** The nonce *)

Lemma to_int_not_nil (z : Z) :
  Z.to_int z <> Decimal.Pos Decimal.Nil /\ Z.to_int z <> Decimal.Neg Decimal.Nil.
Proof.
  split; intros nil; pose proof (DecimalZ.of_to z) as back;
    rewrite nil in back; cbn in back; subst z; discriminate nil.
Qed.

(** The decimal text of an integer determines it. *)
Lemma decimal_inj (z1 z2 : Z) : decimal z1 = decimal z2 -> z1 = z2.
Proof.
  unfold decimal. intros same.
  destruct (to_int_not_nil z1) as [pos1 neg1].
  destruct (to_int_not_nil z2) as [pos2 neg2].
  pose proof (NilZero.isi (Z.to_int z1) pos1 neg1) as back1.
  pose proof (NilZero.isi (Z.to_int z2) pos2 neg2) as back2.
  rewrite same, back2 in back1. inversion back1 as [digits].
  rewrite <- (DecimalZ.of_to z1), <- (DecimalZ.of_to z2). now rewrite digits.
Qed.

(** X16: two requests carry the same nonce exactly when they were built at
    the same clock reading: calls a millisecond or more apart never share a
    nonce, calls within one millisecond always do. *)
Theorem nonce_tells_clock_readings_apart
    (w1 w2 : World) (file1 file2 : number) (key1 key2 : string)
    (s1 s2 st1 st2 : HookState) (target1 target2 : string)
    (init1 init2 : RequestInit) :
  In (st1, Fetch target1 init1)
     (trace_of (requestContributionProof w1 file1 key1 s1)) ->
  In (st2, Fetch target2 init2)
     (trace_of (requestContributionProof w2 file2 key2 s2)) ->
  (nonce (body init1) = nonce (body init2) <-> Date_now w1 = Date_now w2).
Proof.
  intros sent1 sent2.
  apply fetch_event_in_try_block in sent1. apply fetch_event_in_try_block in sent2.
  destruct (fetch_event_dispatch _ _ _ _ _ _ _ sent1) as (r1 & l1 & t1 & reached1).
  destruct (fetch_event_dispatch _ _ _ _ _ _ _ sent2) as (r2 & l2 & t2 & reached2).
  destruct reached1 as [? ? ? ? ? params1 dlp1 _ _ _ _ _ _ _ _ _ _ _ _ ->].
  destruct reached2 as [? ? ? ? ? params2 dlp2 _ _ _ _ _ _ _ _ _ _ _ _ ->].
  cbn [body].
  destruct (add_key_keeps_the_rest (publicKey t1) key1
              (initial_body w1 l1 file1 (decimal (Date_now w1)) key1 dlp1 params1))
    as (_ & _ & -> & _).
  destruct (add_key_keeps_the_rest (publicKey t2) key2
              (initial_body w2 l2 file2 (decimal (Date_now w2)) key2 dlp2 params2))
    as (_ & _ & -> & _).
  cbn [initial_body nonce]. split; [apply decimal_inj | now intros ->].
Qed.

Lemma nonce_witness :
  nonce (body (Sample.init_for Sample.happy (Some "0xTEEKEY")))
  <> nonce (body Edge.later_init).
Proof.
  intros same.
  apply (@nonce_tells_clock_readings_apart Sample.happy Edge.later (Num 9) (Num 9)
           Sample.key Sample.key Sample.idle Sample.idle during_call during_call
           Sample.target Sample.target
           (Sample.init_for Sample.happy (Some "0xTEEKEY")) Edge.later_init)
    in same.
  - discriminate same.
  - vm_compute. find_event.
  - vm_compute. find_event.
Defined.

(** ** A failed executor lookup *)

(** X17: when the lookup of the executor for the chosen job fails, for a
    missing record or a rejected read alike, the workflow passes on the error
    [getTeeDetails] threw, "Failed to get TEE details for job", records it in
    the error cell, and stops: the pool's public key is not read and no
    request is sent. *)
Theorem lookup_failure_stops_the_workflow
    (w : World) (file : number) (key : string) (s st : HookState)
    (contract : string) (n : number) (t : Thrown) :
  In (st, ReadContract contract "jobs" [ArgNum n])
     (trace_of (requestContributionProof w file key s)) ->
  outcome_of (getTeeDetails w n during_call) = Throw t ->
  let r := requestContributionProof w file key s in
  outcome_of r = Throw t /\
  t = ErrorObj "Failed to get TEE details for job" /\
  error (final_state r) = Some "Failed to get TEE details for job" /\
  count is_http_call (trace_of r) = 0%nat /\
  forall st' contract' args,
    ~ In (st', ReadContract contract' "publicKey" args) (trace_of r).
Proof.
  intros here failing. cbv zeta.
  pose proof (getTeeDetails_throws_one_error _ _ _ failing) as generic. subst t.
  destruct (event_in_try_block _ _ _ _ _ _ here) as [inner | [t' absurd]];
    [| discriminate absurd].
  rewrite final_state_of_call, trace_of_call, outcome_of_call. cbv zeta.
  revert inner failing. walk; intros inner failing; pick inner.
  all: inversion inner; subst n; try discriminate failing; try congruence.
  all: repeat split; intros st' contract' args absurd; pick absurd.
Qed.

Lemma lookup_failure_witness :
  outcome_of (requestContributionProof Sample.missing_tee (Num 9) Sample.key
                                       Sample.idle)
  = Throw (ErrorObj "Failed to get TEE details for job").
Proof.
  apply (@lookup_failure_stops_the_workflow Sample.missing_tee (Num 9) Sample.key
           Sample.idle during_call Sample.pool (Num 5)
           (ErrorObj "Failed to get TEE details for job")).
  - vm_compute. find_event.
  - reflexivity.
Defined.
